(** * Lung-cancer classification service: inference request pipeline

    A shallow embedding of [app.py] (Flask REST API) and [app_streamlit.py]
    (Streamlit dashboard): model life cycle, image-to-tensor preprocessing,
    prediction formatting and request orchestration, followed by the
    properties established about them.

    Conventions.
    - Python code that threads process state (the global [model], the
      Streamlit resource cache, [st.session_state]) and raises exceptions is
      written in a state-and-exception monad [M] over [World].
    - The libraries the program calls (Pillow, NumPy, Keras, Streamlit) are
      described by what their documentation promises; the parts that are
      genuinely opaque (decoding an image file, the resampling filter, the
      network's forward pass, the wall clock) are operations of an
      environment class [Env].
    - NumPy and Python floats are IEEE-754 values ([spec_float]) with the
      binary32 and binary64 parameters.
    - Console logging ([print]), [time.sleep], the progress bar of the
      analysis animation (set to the integers 0 to 100 and removed again
      before the run ends), CORS and the static pages have no effect on
      what is stated here and are left out. *)

From Stdlib Require Import ZArith List String Ascii Bool Lia.
From Stdlib Require Import Strings.Byte.
From Stdlib Require Import Floats.SpecFloat.
From Stdlib Require Import Sorting.Sorted Sorting.Permutation.
From stdpp Require Import gmap strings list pretty.

Local Open Scope string_scope.

(* ===================================================================== *)
(** * Python values: exceptions and outcomes *)
(* ===================================================================== *)

Module Py.

(** The exception classes that occur on the modelled paths.
    [KeyboardInterrupt] and [SystemExit] derive from [BaseException] only;
    [StreamlitAPIException] stands for Streamlit's exception of that name
    and its subclasses. *)
Inductive exn_class : Type :=
  | FileNotFoundError
  | OSError
  | ValueError
  | IndexError
  | KeyError
  | TypeError
  | AttributeError
  | UnidentifiedImageError
  | StreamlitAPIException
  | MemoryError
  | KeyboardInterrupt
  | SystemExit.

Record exn : Type := Exn { exn_cls : exn_class; exn_msg : string }.

(** [isinstance(e, Exception)]. *)
Definition is_Exception (e : exn) : bool :=
  match exn_cls e with
  | KeyboardInterrupt | SystemExit => false
  | _ => true
  end.

(** [str(e)] *)
Definition str (e : exn) : string := exn_msg e.

Inductive outcome (A : Type) : Type :=
  | Ok (a : A)
  | Raise (e : exn).
Arguments Ok {A} a.
Arguments Raise {A} e.

Definition is_ok {A} (o : outcome A) : bool :=
  match o with Ok _ => true | Raise _ => false end.

(** [xs[i]] on a Python list. *)
Definition list_getitem {A} (xs : list A) (i : nat) : outcome A :=
  match nth_error xs i with
  | Some x => Ok x
  | None => Raise (Exn IndexError "list index out of range")
  end.

(** [d[k]] on a dict kept in insertion order; the text of a [KeyError] is
    the [repr] of the key. *)
Fixpoint dict_getitem {A} (d : list (string * A)) (k : string) : outcome A :=
  match d with
  | [] => Raise (Exn KeyError ("'" ++ k ++ "'"))
  | (k', v) :: d' => if String.eqb k' k then Ok v else dict_getitem d' k
  end.

(** [d[k] = v] on a dict kept in insertion order: an existing key keeps its
    position, a new key goes last. *)
Fixpoint dict_setitem {A} (d : list (string * A)) (k : string) (v : A)
  : list (string * A) :=
  match d with
  | [] => [(k, v)]
  | (k', v') :: d' =>
      if String.eqb k' k then (k', v) :: d' else (k', v') :: dict_setitem d' k v
  end.

End Py.
Export Py.

(* ===================================================================== *)
(** * IEEE-754 numbers *)
(* ===================================================================== *)

Module Fl.

Local Open Scope Z_scope.

(** [numpy.float32] *)
Definition f32 : Type := spec_float.
(** Python [float] / [numpy.float64] *)
Definition f64 : Type := spec_float.

Definition f32_of_Z (z : Z) : f32 := binary_normalize 24 128 z 0 false.
Definition f64_of_Z (z : Z) : f64 := binary_normalize 53 1024 z 0 false.

Definition f32_div : f32 -> f32 -> f32 := SFdiv 24 128.
Definition f32_mul : f32 -> f32 -> f32 := SFmul 24 128.
Definition f64_div : f64 -> f64 -> f64 := SFdiv 53 1024.
Definition f64_mul : f64 -> f64 -> f64 := SFmul 53 1024.
Definition f64_sub : f64 -> f64 -> f64 := SFsub 53 1024.

(** Widening a binary32 value to binary64 is exact; only the mantissa is
    re-aligned to 53 bits. *)
Definition f64_of_f32 (x : f32) : f64 :=
  match x with
  | S754_finite s m e => binary_round 53 1024 s m e
  | _ => x
  end.

(** The binary32 value nearest to the decimal [n/d], as a literal such as
    [0.7] denotes it. *)
Definition f32_frac (n d : Z) : f32 := f32_div (f32_of_Z n) (f32_of_Z d).

Definition is_nan (x : spec_float) : bool :=
  match x with S754_nan => true | _ => false end.

(** Comparisons; on the canonical values that the arithmetic produces they
    are the numeric order, and every comparison with a NaN is false. *)
Definition fle (x y : spec_float) : bool := SFleb x y.
Definition flt (x y : spec_float) : bool := SFltb x y.
Definition feq (x y : spec_float) : bool := SFeqb x y.

(** [0.0 <= x <= 1.0] *)
Definition in_unit (x : spec_float) : bool :=
  fle (S754_zero false) x && fle x (f32_of_Z 1).

(** Nearest integer to [m * 2^e * 10^nd], ties to even ([m > 0]). *)
Definition scaled_half_even (m : positive) (e : Z) (nd : nat) : Z :=
  let p := Z.pow 10 (Z.of_nat nd) in
  match e with
  | Zneg k =>
      let den := Z.pow 2 (Zpos k) in
      let num := Zpos m * p in
      let q := num / den in
      let r := num mod den in
      match Z.compare (2 * r) den with
      | Lt => q
      | Gt => q + 1
      | Eq => if Z.even q then q else q + 1
      end
  | _ => Zpos m * Z.pow 2 e * p
  end.

(** Python's [round(x, ndigits)] on a float, [ndigits >= 0]: the exact binary
    value is rounded half-to-even to [ndigits] decimals and the resulting
    decimal is converted back to the nearest double; infinities and NaN are
    returned unchanged and the sign of a zero result is kept. *)
Definition py_round (x : f64) (nd : nat) : f64 :=
  match x with
  | S754_finite s m e =>
      match scaled_half_even m e nd with
      | Zpos n =>
          f64_div (S754_finite s n 0)
                  (S754_finite false (Z.to_pos (Z.pow 10 (Z.of_nat nd))) 0)
      | _ => S754_zero s
      end
  | _ => x
  end.

Definition is_finite (x : f64) : bool :=
  match x with
  | S754_zero _ | S754_finite _ _ _ => true
  | _ => false
  end.

(** [math.isclose(a, b, rel_tol=tol, abs_tol=tol)]: equal values are close,
    an infinity is close to nothing else, and otherwise the distance is
    compared with the relative tolerance on either argument and with the
    absolute tolerance. *)
Definition py_isclose (a b tol : f64) : bool :=
  feq a b
  || (is_finite a && is_finite b
      && (let diff := SFabs (f64_sub b a) in
          fle diff (SFabs (f64_mul tol b))
          || fle diff (SFabs (f64_mul tol a))
          || fle diff tol)).

End Fl.
Export Fl.

(* ===================================================================== *)
(** * Pillow images *)
(* ===================================================================== *)

Module PIL.

(** The image modes that the development tells apart, all with integer
    samples.  Pillow opens files in further modes (1, I;16, F, PA, RGBX,
    and the three-band LAB, YCbCr and HSV), which are not represented:
    a statement over [Mode] speaks of these seven only. *)
Inductive Mode : Type := L | LA | P | RGB | RGBA | CMYK | I.

Definition mode_name (m : Mode) : string :=
  match m with
  | L => "L" | LA => "LA" | P => "P" | RGB => "RGB"
  | RGBA => "RGBA" | CMYK => "CMYK" | I => "I"
  end.

(** [len(img.getbands())] *)
Definition bands (m : Mode) : nat :=
  match m with
  | L | P | I => 1
  | LA => 2
  | RGB => 3
  | RGBA | CMYK => 4
  end.

(** Range of one sample: 8 bits per band, except the 32-bit signed mode. *)
Definition sample_ok (m : Mode) (v : Z) : bool :=
  match m with
  | I => (Z.leb (-2147483648) v && Z.leb v 2147483647)%Z
  | _ => (Z.leb 0 v && Z.leb v 255)%Z
  end.

(** A decoded image.  [size] is [(width, height)]; [format] is the file
    format of the source file, [None] for an image made by the library
    itself; [px] is the buffer, rows of pixels of band samples. *)
Record Image : Type := mkImage {
  mode : Mode;
  size : nat * nat;
  format : option string;
  px : list (list (list Z))
}.

Definition width (img : Image) : nat := fst (size img).
Definition height (img : Image) : nat := snd (size img).

Definition pixel_okb (m : Mode) (p : list Z) : bool :=
  Nat.eqb (length p) (bands m) && forallb (sample_ok m) p.

Definition row_okb (m : Mode) (w : nat) (r : list (list Z)) : bool :=
  Nat.eqb (length r) w && forallb (pixel_okb m) r.

(** The buffer agrees with the declared size and mode. *)
Definition wf_image (img : Image) : bool :=
  Nat.eqb (length (px img)) (height img)
  && forallb (row_okb (mode img) (width img)) (px img).

(** [img.convert('RGB')] on an RGBA image: the alpha band is dropped.  The
    result is a new image, so its [format] is [None]. *)
Definition rgba2rgb (p : list Z) : list Z := firstn 3 p.

Definition convert_RGB (img : Image) : Image :=
  {| mode := RGB;
     size := size img;
     format := None;
     px := map (map rgba2rgb) (px img) |}.

(** [[f 0; ...; f (n-1)]] *)
Definition tabulate {A} (n : nat) (f : nat -> A) : list A := map f (seq 0 n).

(** [img.resize((w, h))]: a new image of the requested size and the same
    mode whose pixel at column [x], row [y] is given by the resampling
    filter [resample]. *)
Definition resize_with (resample : Image -> nat * nat -> nat -> nat -> list Z)
    (img : Image) (sz : nat * nat) : Image :=
  {| mode := mode img;
     size := sz;
     format := None;
     px := tabulate (snd sz) (fun y =>
             tabulate (fst sz) (fun x => resample img sz x y)) |}.

(** Nearest-neighbour resampling ([Image.NEAREST]): the source pixel that
    lies under the centre of the target pixel.  It serves as the filter of
    the sample environment; [img.resize(size)] without a filter resamples
    bicubically except in the modes 1 and P. *)
Definition nearest (img : Image) (sz : nat * nat) (x y : nat) : list Z :=
  let sx := ((2 * x + 1) * width img) / (2 * fst sz) in
  let sy := ((2 * y + 1) * height img) / (2 * snd sz) in
  nth sx (nth sy (px img) []) (repeat 0%Z (bands (mode img))).

End PIL.
Export PIL.

(* ===================================================================== *)
(** * NumPy arrays *)
(* ===================================================================== *)

Module Np.

(** A float32 array: its shape and its elements in row-major order. *)
Record ndarray : Type := mkArr { shape : list nat; data : list f32 }.

(** [np.array(img, dtype=np.float32)]: Pillow's array interface gives shape
    [(height, width)] for a single-band image and [(height, width, bands)]
    otherwise. *)
Definition array_of_image (img : Image) : ndarray :=
  {| shape := height img :: width img ::
              (if Nat.eqb (bands (mode img)) 1 then [] else [bands (mode img)]);
     data := map f32_of_Z (concat (concat (px img))) |}.

(** [np.expand_dims(a, axis=0)] *)
Definition expand_dims0 (a : ndarray) : ndarray :=
  {| shape := 1 :: shape a; data := data a |}.

(** [a / c] for a float32 array and a Python float: elementwise, in float32. *)
Definition div_scalar (a : ndarray) (c : f32) : ndarray :=
  {| shape := shape a; data := map (fun v => f32_div v c) (data a) |}.

(** The scan of [np.argmax] over a 1-D float array: the running maximum is
    replaced only by an element that is not [<=] it, and a NaN ends the
    scan. *)
Fixpoint argmax_scan (xs : list f32) (i : nat) (mp : f32) (mi : nat) : nat :=
  match xs with
  | [] => mi
  | x :: xs' =>
      if fle x mp then argmax_scan xs' (S i) mp mi
      else if is_nan x then i
      else argmax_scan xs' (S i) x i
  end.

Definition argmax (xs : list f32) : outcome nat :=
  match xs with
  | [] => Raise (Exn ValueError "attempt to get argmax of an empty sequence")
  | x :: xs' => Ok (if is_nan x then 0 else argmax_scan xs' 1 x 0)
  end.

(** [a[i]] on a 1-D array or on the first axis of a 2-D array. *)
Definition getitem {A} (a : list A) (i : nat) : outcome A :=
  match nth_error a i with
  | Some x => Ok x
  | None =>
      Raise (Exn IndexError
               ("index " ++ pretty i ++ " is out of bounds for axis 0 with size "
                ++ pretty (length a)))
  end.

(** [float(v * k)] for a float32 scalar [v] and a Python int [k].  With
    NEP 50 promotion (NumPy 2) the product is computed in float32; with the
    legacy promotion (NumPy 1) the int is an int64 and the product is
    computed in float64. *)
Definition scalar_times_int (nep50 : bool) (v : f32) (k : Z) : f64 :=
  if nep50 then f64_of_f32 (f32_mul v (f32_of_Z k))
  else f64_mul (f64_of_f32 v) (f64_of_Z k).

End Np.
Export Np.

(* ===================================================================== *)
(** * Process state and the effect monad *)
(* ===================================================================== *)

(** What [keras.models.load_model] deserializes: the network with its
    declared shapes.  [None] in a shape is a free dimension. *)
Record Net : Type := mkNet {
  input_shape : list (option nat);
  output_shape : list (option nat);
  count_params : Z
}.

(** A model instance.  Every deserialization creates a new instance; [mid]
    is its identity. *)
Record Model : Type := mkModel { mid : nat; net : Net }.

(** The opaque services of the libraries and of the operating system. *)
Class Env : Type := {
  (** [Image.open(io.BytesIO(b))] with its pixel data *)
  image_open : list byte -> outcome Image;
  (** the resampling filter used by [Image.resize] *)
  resample : Image -> nat * nat -> nat -> nat -> list Z;
  (** [keras.models.load_model] on a file's content; the second argument is
      the [safe_mode] keyword, [None] when it is not passed *)
  keras_load : list byte -> option bool -> outcome Net;
  (** [model.compile(optimizer=..., loss=..., metrics=...)] *)
  keras_compile : Net -> outcome unit;
  (** the forward pass on an input of an accepted shape; the result is the
      batch of output rows *)
  keras_forward : Net -> ndarray -> outcome (list (list f32));
  (** NumPy's scalar promotion rules (see [scalar_times_int]) *)
  nep50 : bool;
  (** the [n]-th reading of [time.time()] *)
  clock : nat -> f64;
  (** the [n]-th reading of the clock, as [datetime.now()] formats it *)
  clock_text : nat -> string
}.

(** Values kept in [st.session_state]. *)
Inductive PyVal : Type :=
  | VNone
  | VBool (b : bool)
  | VInt (z : Z)
  | VFloat (x : f64)
  | VStr (s : string)
  | VDict (d : list (string * f64)).

(** What a run of the dashboard script draws.  Static decoration (style
    sheet, headers, the two informational tabs, the footer) is not kept. *)
Inductive Widget : Type :=
  | StError (msg : string)
  | StInfo (msg : string)
  | StSuccess (msg : string)
  | StWarning (msg : string)
  | StImage (caption : string)
  | StMetric (label value : string)
  (** [st.metric(label, f"{x:.2f}%")] *)
  | StMetricPct (label : string) (x : f64)
  (** [st.progress(x / 100)] *)
  | StProgress (x : f64)
  (** the diagnosis card: emoji, class, description, border colour *)
  | StResultCard (emoji cls description color : string)
  (** one line of the probability distribution *)
  | StProbRow (emoji cls : string) (prob : f64) (is_predicted : bool)
  (** the name of such a line alone, whose bar was refused *)
  | StProbName (emoji cls : string) (is_predicted : bool)
  | StButton (label : string)
  (** the download button with the data of the text report: analysis time,
      diagnosis, confidence, distribution, recommended action *)
  | StDownload (analysis_time cls : string) (confidence : f64)
               (probabilities : list (string * f64)) (action : string).

(** Observable actions on the outside world, most recent last. *)
Inductive Event : Type :=
  | EvExists (path : string)
  | EvGetsize (path : string)
  | EvLoadModel (path : string) (safe_mode : option bool) (ok : bool)
  | EvCompile (id : nat)
  | EvImageOpen
  | EvPredict (id : nat) (input : list nat).

(** The state of a server process.  [app.py] uses the global [model];
    [app_streamlit.py] uses the resource cache of [st.cache_resource] and
    the session state of its one session. *)
Record World : Type := mkWorld {
  disk : gmap string (list byte);
  model : option Model;
  st_cache : option (option Model * option string);
  session_state : gmap string PyVal;
  screen : list Widget;
  next_id : nat;
  ticks : nat;
  trace : list Event
}.

Definition M (A : Type) : Type := World -> outcome A * World.

Definition ret {A} (a : A) : M A := fun w => (Ok a, w).
Definition raise {A} (e : exn) : M A := fun w => (Raise e, w).
Definition bind {A B} (c : M A) (k : A -> M B) : M B :=
  fun w => match c w with
           | (Ok a, w') => k a w'
           | (Raise e, w') => (Raise e, w')
           end.
Definition lift {A} (o : outcome A) : M A := fun w => (o, w).

Declare Scope py_scope.
Delimit Scope py_scope with py.
Notation "x <- c ;; k" := (bind c (fun x => k))
  (at level 20, c at level 99, k at level 200, only parsing) : py_scope.
Notation "c ;;; k" := (bind c (fun _ => k))
  (at level 100, k at level 200, right associativity, only parsing) : py_scope.
Local Open Scope py_scope.

(** [try: body except <classes>: handler]; the state reached by the body
    when it raised is the state the handler starts from. *)
Definition try_except {A} (body : M A) (catches : exn -> bool)
    (handler : exn -> M A) : M A :=
  fun w => match body w with
           | (Ok a, w') => (Ok a, w')
           | (Raise e, w') =>
               if catches e then handler e w' else (Raise e, w')
           end.

Definition emit (ev : Event) : M unit :=
  fun w => (Ok tt, {| disk := disk w; model := model w; st_cache := st_cache w;
                      session_state := session_state w; screen := screen w;
               next_id := next_id w;
                      ticks := ticks w; trace := trace w ++ [ev] |}).

Definition get_model : M (option Model) := fun w => (Ok (model w), w).

Definition set_model (m : option Model) : M unit :=
  fun w => (Ok tt, {| disk := disk w; model := m; st_cache := st_cache w;
                      session_state := session_state w; screen := screen w;
               next_id := next_id w;
                      ticks := ticks w; trace := trace w |}).

Definition get_cache : M (option (option Model * option string)) :=
  fun w => (Ok (st_cache w), w).

Definition set_cache (c : option (option Model * option string)) : M unit :=
  fun w => (Ok tt, {| disk := disk w; model := model w; st_cache := c;
                      session_state := session_state w; screen := screen w;
               next_id := next_id w;
                      ticks := ticks w; trace := trace w |}).

Definition get_session : M (gmap string PyVal) :=
  fun w => (Ok (session_state w), w).

Definition set_session (s : gmap string PyVal) : M unit :=
  fun w => (Ok tt, {| disk := disk w; model := model w; st_cache := st_cache w;
                      session_state := s; screen := screen w;
                      next_id := next_id w;
                      ticks := ticks w; trace := trace w |}).

(** A drawing call of Streamlit: the element is added below the ones
    already drawn in this run. *)
Definition st_draw (x : Widget) : M unit :=
  fun w => (Ok tt, {| disk := disk w; model := model w; st_cache := st_cache w;
                      session_state := session_state w;
                      screen := screen w ++ [x];
                      next_id := next_id w;
                      ticks := ticks w; trace := trace w |}).

(** A run of the script starts from an empty page. *)
Definition st_rerun : M unit :=
  fun w => (Ok tt, {| disk := disk w; model := model w; st_cache := st_cache w;
                      session_state := session_state w;
                      screen := [];
                      next_id := next_id w;
                      ticks := ticks w; trace := trace w |}).

(** Allocation of the identity of a new model instance. *)
Definition fresh_id : M nat :=
  fun w => (Ok (next_id w),
            {| disk := disk w; model := model w; st_cache := st_cache w;
               session_state := session_state w; screen := screen w;
               next_id := S (next_id w);
               ticks := ticks w; trace := trace w |}).

(** One reading of the clock. *)
Definition tick : M nat :=
  fun w => (Ok (ticks w),
            {| disk := disk w; model := model w; st_cache := st_cache w;
               session_state := session_state w; screen := screen w;
               next_id := next_id w;
               ticks := S (ticks w); trace := trace w |}).

Section Services.
Context {E : Env}.

(** [time.time()] *)
Definition time_time : M f64 := n <- tick ;; ret (clock n).

(** [datetime.now()] rendered as text *)
Definition datetime_now : M string := n <- tick ;; ret (clock_text n).

(** [os.path.exists(path)] *)
Definition path_exists (path : string) : M bool :=
  emit (EvExists path) ;;;
  fun w => (Ok (bool_decide (is_Some (disk w !! path))), w).

(** [os.path.getsize(path)], in bytes *)
Definition path_getsize (path : string) : M nat :=
  emit (EvGetsize path) ;;;
  fun w => match disk w !! path with
           | Some b => (Ok (length b), w)
           | None => (Raise (Exn FileNotFoundError path), w)
           end.

(** [keras.models.load_model(path, compile=False[, safe_mode=sm])]: a
    successful call yields a new model instance. *)
Definition load_model_file (path : string) (sm : option bool) : M Model :=
  fun w =>
    match disk w !! path with
    | None => (emit (EvLoadModel path sm false) ;;;
               raise (Exn OSError ("No file or directory found at " ++ path))) w
    | Some b =>
        match keras_load b sm with
        | Ok n => (emit (EvLoadModel path sm true) ;;;
                   i <- fresh_id ;; ret {| mid := i; net := n |}) w
        | Raise e => (emit (EvLoadModel path sm false) ;;; raise e) w
        end
    end.

(** [m.compile(...)] *)
Definition model_compile (m : Model) : M unit :=
  emit (EvCompile (mid m)) ;;; lift (keras_compile (net m)).

(** A declared shape accepts an actual one when the ranks agree and every
    fixed dimension is matched. *)
Fixpoint shape_accepts (decl : list (option nat)) (actual : list nat) : bool :=
  match decl, actual with
  | [], [] => true
  | None :: d, _ :: a => shape_accepts d a
  | Some n :: d, k :: a => Nat.eqb n k && shape_accepts d a
  | _, _ => false
  end.

(** [m.predict(x, verbose=0)]: Keras rejects an input that is incompatible
    with the declared input shape before running the network.  That it
    raises a [ValueError] is what the callers depend on; the text below
    stands for Keras's message, whose wording differs between versions and
    names the layer and the two shapes. *)
Definition model_predict (m : Model) (x : ndarray) : M (list (list f32)) :=
  emit (EvPredict (mid m) (shape x)) ;;;
  if shape_accepts (input_shape (net m)) (shape x)
  then lift (keras_forward (net m) x)
  else raise (Exn ValueError "Input 0 of layer is incompatible with the layer").

(** [Image.open(io.BytesIO(b))] *)
Definition pil_open (b : list byte) : M Image :=
  emit EvImageOpen ;;; lift (image_open b).

(** [img.resize(sz)] *)
Definition resize (img : Image) (sz : nat * nat) : Image :=
  resize_with resample img sz.

End Services.

(* ===================================================================== *)
(** * [app.py]: the REST API *)
(* ===================================================================== *)

Module App.

Definition MODEL_PATH : string := "best_lung_model.h5".
Definition IMG_SIZE : nat * nat := (150, 150).
Definition CLASS_NAMES : list string :=
  ["Adenocarcinoma"; "Normal"; "Squamous Cell Carcinoma"].

Definition CLASS_INFO : list (string * list (string * string)) :=
  [ ("Adenocarcinoma",
      [ ("emoji", "🔴"); ("color", "#FF6B6B");
        ("description", "A type of non-small cell lung cancer that begins in mucus-secreting cells.");
        ("action", "Immediate consultation with oncologist recommended.");
        ("severity", "high") ]);
    ("Squamous Cell Carcinoma",
      [ ("emoji", "🟠"); ("color", "#FF8C42");
        ("description", "A type of non-small cell lung cancer that begins in flat cells lining the airways.");
        ("action", "Immediate consultation with oncologist recommended.");
        ("severity", "high") ]);
    ("Normal",
      [ ("emoji", "🟢"); ("color", "#51CF66");
        ("description", "Healthy lung tissue with no signs of malignancy.");
        ("action", "No immediate action required. Continue regular monitoring.");
        ("severity", "low") ]) ].

(** JSON documents as [jsonify] receives them. *)
#[warnings="-register-all"]
Inductive json : Type :=
  | JBool (b : bool)
  | JInt (n : Z)
  | JFloat (x : f64)
  | JStr (s : string)
  | JObj (fields : list (string * json)).

(** A Flask response: the JSON body and the status code. *)
Record Response : Type := mkResponse { body : json; status : nat }.

(** An uploaded file of a multipart form ([werkzeug] [FileStorage]). *)
Record FileStorage : Type := mkFile { filename : string; content : list byte }.

(** The part of [flask.request] the handler reads. *)
Record Request : Type := mkRequest { files : gmap string FileStorage }.

Section WithEnv.
Context {E : Env}.

(** [load_model_once()] (lines 62-114). *)
Definition load_model_once : M (option Model) :=
  g <- get_model ;;
  match g with
  | Some m => ret (Some m)
  | None =>
      try_except
        (ex <- path_exists MODEL_PATH ;;
         if negb ex
         then raise (Exn FileNotFoundError ("Model file not found: " ++ MODEL_PATH))
         else
           (_ <- path_getsize MODEL_PATH ;;
            _ <- time_time ;;
            _ <- try_except
                   (m <- load_model_file MODEL_PATH (Some false) ;;
                    set_model (Some m))
                   (fun _ => true)
                   (fun _ =>
                      m <- load_model_file MODEL_PATH None ;;
                      set_model (Some m)) ;;
            _ <- time_time ;;
            g' <- get_model ;;
            match g' with
            | Some m => model_compile m ;;; ret (Some m)
            | None => raise (Exn AttributeError "'NoneType' object has no attribute 'input_shape'")
            end))
        is_Exception
        (fun _ => ret None)
  end.

(** The [__main__] block (lines 256-271): [true] when the server goes on to
    accept requests, [false] when the process exits with status 1. *)
Definition server_start : M bool :=
  r <- load_model_once ;;
  set_model r ;;;
  match r with
  | None => ret false
  | Some _ => ret true
  end.

(** The image-to-tensor steps of [predict] (lines 163-180), on an opened
    image: the image after the mode guard, and the normalized array. *)
Definition prepare (img : Image) : Image * ndarray :=
  let img := match mode img with RGBA => convert_RGB img | _ => img end in
  let img_resized := resize img IMG_SIZE in
  let img_array := array_of_image img_resized in
  let img_array := expand_dims0 img_array in
  let img_array := div_scalar img_array (f32_of_Z 255) in
  (img, img_array).

(** The dict comprehension of lines 193-196. *)
Fixpoint probabilities_of (p0 : list f32) (idxs : list nat)
    (acc : list (string * f64)) : outcome (list (string * f64)) :=
  match idxs with
  | [] => Ok acc
  | i :: idxs' =>
      match list_getitem CLASS_NAMES i with
      | Raise e => Raise e
      | Ok name =>
          match getitem p0 i with
          | Raise e => Raise e
          | Ok v =>
              probabilities_of p0 idxs'
                (dict_setitem acc name (scalar_times_int nep50 v 100))
          end
      end
  end.

(** The result of the formatting steps of [predict] (lines 188-206). *)
Record Formatted : Type := mkFormatted {
  predicted_class : string;
  confidence : f64;
  probabilities : list (string * f64);
  class_info : list (string * string)
}.

Definition format_result (predictions : list (list f32)) : outcome Formatted :=
  match getitem predictions 0 with
  | Raise e => Raise e
  | Ok p0 =>
  match argmax p0 with
  | Raise e => Raise e
  | Ok predicted_class_idx =>
  match list_getitem CLASS_NAMES predicted_class_idx with
  | Raise e => Raise e
  | Ok predicted_class =>
  match getitem p0 predicted_class_idx with
  | Raise e => Raise e
  | Ok v =>
  let confidence := scalar_times_int nep50 v 100 in
  match probabilities_of p0 (seq 0 (length CLASS_NAMES)) [] with
  | Raise e => Raise e
  | Ok probabilities =>
  match dict_getitem CLASS_INFO predicted_class with
  | Raise e => Raise e
  | Ok class_info =>
      Ok {| predicted_class := predicted_class;
            confidence := py_round confidence 2;
            probabilities := map (fun kv => (fst kv, py_round (snd kv) 2)) probabilities;
            class_info := class_info |}
  end end end end end end.

Definition json_of_strings (d : list (string * string)) : json :=
  JObj (map (fun kv => (fst kv, JStr (snd kv))) d).

Definition json_of_floats (d : list (string * f64)) : json :=
  JObj (map (fun kv => (fst kv, JFloat (snd kv))) d).

Definition error_response (msg : string) (code : nat) : Response :=
  {| body := JObj [("error", JStr msg); ("success", JBool false)];
     status := code |}.

(** [img.format if img.format else 'Unknown'] *)
Definition format_or_unknown (img : Image) : string :=
  match format img with
  | Some f => if String.eqb f "" then "Unknown" else f
  | None => "Unknown"
  end.

(** [predict()], the handler of [POST /api/predict] (lines 133-226). *)
Definition predict (request : Request) : M Response :=
  try_except
    (g <- get_model ;;
     match g with
     | None => ret (error_response "Model not loaded" 500)
     | Some m =>
         match files request !! "file" with
         | None => ret (error_response "No file uploaded" 400)
         | Some file =>
             if String.eqb (filename file) ""
             then ret (error_response "No file selected" 400)
             else
               (img <- pil_open (content file) ;;
                let '(img, img_array) := prepare img in
                let '(original_width, original_height) := size img in
                start_time <- time_time ;;
                predictions <- model_predict m img_array ;;
                end_time <- time_time ;;
                let prediction_time := f64_sub end_time start_time in
                r <- lift (format_result predictions) ;;
                timestamp <- datetime_now ;;
                ret {| body := JObj
                         [ ("success", JBool true);
                           ("predicted_class", JStr (predicted_class r));
                           ("confidence", JFloat (confidence r));
                           ("probabilities", json_of_floats (probabilities r));
                           ("class_info", json_of_strings (class_info r));
                           ("prediction_time", JFloat (py_round prediction_time 3));
                           ("image_info", JObj
                              [ ("original_width", JInt (Z.of_nat original_width));
                                ("original_height", JInt (Z.of_nat original_height));
                                ("format", JStr (format_or_unknown img)) ]);
                           ("timestamp", JStr timestamp) ];
                       status := 200 |})
         end
     end)
    is_Exception
    (fun e => ret (error_response (str e) 500)).

End WithEnv.

(** JSON documents with arrays, as the model-information endpoint returns
    them. *)
#[warnings="-register-all"]
Inductive jsonx : Type :=
  | XAtom (j : json)
  | XArr (items : list json)
  | XObj (fields : list (string * jsonx)).

Record ResponseX : Type := mkResponseX { bodyx : jsonx; statusx : nat }.

(** [str(t)] for a tuple of shape entries: [(None, 150, 150, 3)], [(3,)],
    [()]. *)
Definition str_dim (d : option nat) : string :=
  match d with Some n => pretty n | None => "None" end.

Fixpoint str_dims (ds : list (option nat)) : string :=
  match ds with
  | [] => ""
  | [d] => str_dim d
  | d :: ds' => str_dim d ++ ", " ++ str_dims ds'
  end.

Definition str_shape (ds : list (option nat)) : string :=
  match ds with
  | [d] => "(" ++ str_dim d ++ ",)"
  | _ => "(" ++ str_dims ds ++ ")"
  end.

Section Endpoints.
Context {E : Env}.

(** [health_check()], the handler of [GET /api/health] (lines 123-130). *)
Definition health_check : M Response :=
  g <- get_model ;;
  timestamp <- datetime_now ;;
  ret {| body := JObj
           [ ("status", JStr "healthy");
             ("model_loaded", JBool (match g with Some _ => true | None => false end));
             ("timestamp", JStr timestamp) ];
         status := 200 |}.

(** [model_info()], the handler of [GET /api/model-info] (lines 229-253).
    The shapes and the parameter count are attributes of the deserialized
    network, so reading them does not raise here and the handler of the
    [try] has nothing to catch. *)
Definition model_info : M ResponseX :=
  g <- get_model ;;
  match g with
  | None =>
      ret {| bodyx := XObj [("error", XAtom (JStr "Model not loaded"));
                            ("success", XAtom (JBool false))];
             statusx := 500 |}
  | Some m =>
      try_except
        (ret {| bodyx := XObj
                  [ ("success", XAtom (JBool true));
                    ("model_info", XObj
                       [ ("input_shape", XAtom (JStr (str_shape (input_shape (net m)))));
                         ("output_shape", XAtom (JStr (str_shape (output_shape (net m)))));
                         ("total_params", XAtom (JInt (count_params (net m))));
                         ("classes", XArr (map JStr CLASS_NAMES));
                         ("image_size", XArr [JInt (Z.of_nat (fst IMG_SIZE));
                                              JInt (Z.of_nat (snd IMG_SIZE))]) ]) ];
                statusx := 200 |})
        is_Exception
        (fun e =>
           ret {| bodyx := XObj [("error", XAtom (JStr (str e)));
                                 ("success", XAtom (JBool false))];
                  statusx := 500 |})
  end.

End Endpoints.

End App.

(* ===================================================================== *)
(** * [app_streamlit.py]: the dashboard *)
(* ===================================================================== *)

Module Dashboard.

Definition MODEL_PATH : string := "best_lung_model.h5".
Definition IMG_SIZE : nat * nat := (150, 150).
Definition CLASS_NAMES : list string :=
  ["Adenocarcinoma"; "Normal"; "Squamous Cell Carcinoma"].

Definition CLASS_INFO : list (string * list (string * string)) :=
  [ ("Adenocarcinoma",
      [ ("emoji", "🔴"); ("color", "#FF6B6B");
        ("description", "A type of non-small cell lung cancer that begins in mucus-secreting cells.");
        ("action", "Immediate consultation with oncologist recommended.") ]);
    ("Squamous Cell Carcinoma",
      [ ("emoji", "🟠"); ("color", "#FF8C42");
        ("description", "A type of non-small cell lung cancer that begins in flat cells lining the airways.");
        ("action", "Immediate consultation with oncologist recommended.") ]);
    ("Normal",
      [ ("emoji", "🟢"); ("color", "#51CF66");
        ("description", "Healthy lung tissue with no signs of malignancy.");
        ("action", "No immediate action required. Continue regular monitoring.") ]) ].

(** The file handed over by [st.file_uploader]. *)
Record UploadedFile : Type := mkUpload { name : string; content : list byte }.

(** Truth value of a Python object. *)
Definition truthy (v : PyVal) : bool :=
  match v with
  | VNone => false
  | VBool b => b
  | VInt z => negb (Z.eqb z 0)
  | VFloat x => negb (feq x (S754_zero false))
  | VStr s => negb (String.eqb s "")
  | VDict d => match d with [] => false | _ => true end
  end.

Definition val_of_str (o : option string) : PyVal :=
  match o with Some s => VStr s | None => VNone end.
Definition val_of_float (o : option f64) : PyVal :=
  match o with Some x => VFloat x | None => VNone end.
Definition val_of_dict (o : option (list (string * f64))) : PyVal :=
  match o with Some d => VDict d | None => VNone end.

(** [sorted(d.items(), key=lambda x: x[1], reverse=True)]: descending by
    value, entries with equal values in their original order. *)
Fixpoint insert_desc (x : string * f64) (l : list (string * f64))
  : list (string * f64) :=
  match l with
  | [] => [x]
  | y :: l' => if flt (snd x) (snd y) then y :: insert_desc x l' else x :: l
  end.

Definition sorted_desc (d : list (string * f64)) : list (string * f64) :=
  fold_right insert_desc [] d.

Section WithEnv.
Context {E : Env}.

(** [st.session_state.k = v] *)
Definition session_set (k : string) (v : PyVal) : M unit :=
  s <- get_session ;; set_session (<[k := v]> s).

(** [st.session_state.k] *)
Definition session_get (k : string) : M PyVal :=
  s <- get_session ;;
  match s !! k with
  | Some v => ret v
  | None => raise (Exn AttributeError ("st.session_state has no attribute " ++ k))
  end.

(** [@st.cache_resource]: the first completed call stores what the function
    returned; every later call returns the stored object without running
    the function. *)
Definition cache_resource (f : M (option Model * option string))
  : M (option Model * option string) :=
  c <- get_cache ;;
  match c with
  | Some r => ret r
  | None => r <- f ;; set_cache (Some r) ;;; ret r
  end.

(** The body of [load_model()] (lines 128-180). *)
Definition load_model_body : M (option Model * option string) :=
  try_except
    (ex <- path_exists MODEL_PATH ;;
     if negb ex
     then raise (Exn FileNotFoundError ("Model file not found: " ++ MODEL_PATH))
     else
       (_ <- path_getsize MODEL_PATH ;;
        _ <- time_time ;;
        m <- load_model_file MODEL_PATH None ;;
        _ <- time_time ;;
        model_compile m ;;;
        ret (Some m, None)))
    is_Exception
    (fun e => ret (None, Some (str e))).

Definition load_model : M (option Model * option string) :=
  cache_resource load_model_body.

(** The image-to-tensor steps of [predict_image] (lines 186-196). *)
Definition prepare (img : Image) : ndarray :=
  let img_resized := resize img IMG_SIZE in
  let img_array := array_of_image img_resized in
  let img_array := expand_dims0 img_array in
  div_scalar img_array (f32_of_Z 255).

(** The dict comprehension of lines 207-210. *)
Fixpoint probabilities_of (p0 : list f32) (idxs : list nat)
    (acc : list (string * f64)) : outcome (list (string * f64)) :=
  match idxs with
  | [] => Ok acc
  | i :: idxs' =>
      match list_getitem CLASS_NAMES i with
      | Raise e => Raise e
      | Ok name =>
          match getitem p0 i with
          | Raise e => Raise e
          | Ok v =>
              probabilities_of p0 idxs'
                (dict_setitem acc name (scalar_times_int nep50 v 100))
          end
      end
  end.

(** What [predict_image] returns:
    [(predicted_class, confidence, probabilities, error)]. *)
Definition Prediction : Type :=
  option string * option f64 * option (list (string * f64)) * option string.

(** [predict_image(model, img)] (lines 183-214).  The confidence and the
    probabilities stay NumPy scalars in the source; they are kept here as
    the doubles of the same value.  Their NumPy type follows from [nep50]
    and matters to [st.progress] alone (see [progress_error]). *)
Definition predict_image (m : Model) (img : Image) : M Prediction :=
  try_except
    (let img_array := prepare img in
     predictions <- model_predict m img_array ;;
     p0 <- lift (getitem predictions 0) ;;
     predicted_class_idx <- lift (argmax p0) ;;
     predicted_class <- lift (list_getitem CLASS_NAMES predicted_class_idx) ;;
     v <- lift (getitem p0 predicted_class_idx) ;;
     let confidence := scalar_times_int nep50 v 100 in
     probabilities <- lift (probabilities_of p0 (seq 0 (length CLASS_NAMES)) []) ;;
     ret (Some predicted_class, Some confidence, Some probabilities, None))
    is_Exception
    (fun e => ret (None, None, None, Some (str e))).

(** Reading session attributes at the type the script uses them. *)
Definition session_str (k : string) : M string :=
  v <- session_get k ;;
  match v with
  | VStr s => ret s
  | _ => raise (Exn KeyError k)
  end.

Definition session_float (k : string) : M f64 :=
  v <- session_get k ;;
  match v with
  | VFloat x => ret x
  | _ => raise (Exn TypeError k)
  end.

Definition session_dict (k : string) : M (list (string * f64)) :=
  v <- session_get k ;;
  match v with
  | VDict d => ret d
  | _ => raise (Exn AttributeError k)
  end.

(** [CLASS_INFO[cls][field]] *)
Definition info_field (cls field : string) : M string :=
  ci <- lift (dict_getitem CLASS_INFO cls) ;;
  lift (dict_getitem ci field).

(** The sidebar (lines 249-298), as far as it touches state. *)
Definition sidebar : M unit :=
  st_draw (StSuccess "✅ **Model Active**") ;;;
  s <- get_session ;;
  (match s !! "analysis_count" with
   | None => session_set "analysis_count" (VInt 0)
   | Some _ => ret tt
   end) ;;;
  c <- session_get "analysis_count" ;;
  st_draw (StMetric "Analyses Performed"
             (match c with VInt z => pretty z | _ => "" end)).

(** The action of the analyze button (lines 340-376). *)
Definition analyze (m : Model) (img : Image) : M unit :=
  r <- predict_image m img ;;
  let '(predicted_class, confidence, probabilities, error) := r in
  if truthy (val_of_str error)
  then
    st_draw (StError ("❌ Error during analysis: " ++
                      match error with Some e => e | None => "None" end)) ;;;
    session_set "prediction_made" (VBool false)
  else
    session_set "prediction_made" (VBool true) ;;;
    session_set "predicted_class" (val_of_str predicted_class) ;;;
    session_set "confidence" (val_of_float confidence) ;;;
    session_set "probabilities" (val_of_dict probabilities) ;;;
    c <- session_get "analysis_count" ;;
    (match c with
     | VInt z => session_set "analysis_count" (VInt (z + 1))
     | _ => raise (Exn TypeError "unsupported operand type(s) for +=")
     end) ;;;
    t <- datetime_now ;;
    session_set "analysis_time" (VStr t).

(** The upload column (lines 306-389). *)
Definition upload_column (m : Model) (uploaded_file : option UploadedFile)
    (analyze_btn : bool) : M unit :=
  match uploaded_file with
  | Some f =>
      img <- pil_open (content f) ;;
      st_draw (StImage ("📁 " ++ name f)) ;;;
      st_draw (StMetric "Width" (pretty (width img) ++ "px")) ;;;
      st_draw (StMetric "Height" (pretty (height img) ++ "px")) ;;;
      st_draw (StMetric "Format" (App.format_or_unknown img)) ;;;
      st_draw (StButton "🔬 Start AI Analysis") ;;;
      if analyze_btn then analyze m img else ret tt
  | None =>
      st_draw (StInfo "👆 **Please upload a histopathological image to begin analysis**")
  end.

(** Streamlit's test of a float progress value: between 0.0 and 1.0, or
    within 1e-9 of either bound. *)
Definition progress_value_ok (v : f64) : bool :=
  let tol := f64_div (f64_of_Z 1) (f64_of_Z 1000000000) in
  (fle (f64_of_Z 0) v && fle v (f64_of_Z 1))
  || py_isclose v (f64_of_Z 0) tol
  || py_isclose v (f64_of_Z 1) tol.

(** What [st.progress(x / 100)] raises, if anything, for the NumPy scalar
    [x] that [predict_image] computed.  Streamlit takes an [int] or a
    [float].  Under NumPy 2 the scalar and its quotient are [numpy.float32],
    which is neither, and the call is refused; under the earlier promotion
    rules they are [numpy.float64], a subclass of [float], and the value is
    tested.  The texts stand for Streamlit's, which vary with its version. *)
Definition progress_error (x : f64) : option exn :=
  if nep50
  then Some (Exn StreamlitAPIException "Progress Value has invalid type: float32")
  else if progress_value_ok (f64_div x (f64_of_Z 100))
       then None
       else Some (Exn StreamlitAPIException
                      "Progress Value has invalid value [0.0, 1.0]").

(** [st.progress(x / 100)] *)
Definition st_progress (x : f64) : M unit :=
  match progress_error x with
  | None => st_draw (StProgress x)
  | Some e => raise e
  end.

(** The rows of the probability distribution (lines 439-455).  A row is its
    name, its bar and its value, drawn in this order; when the bar is
    refused the name has been drawn. *)
Fixpoint probability_rows (rows : list (string * f64)) (predicted : string)
  : M unit :=
  match rows with
  | [] => ret tt
  | (class_name, prob) :: rows' =>
      class_emoji <- info_field class_name "emoji" ;;
      _ <- info_field class_name "color" ;;
      let is_predicted := String.eqb class_name predicted in
      (match progress_error prob with
       | None => st_draw (StProbRow class_emoji class_name prob is_predicted)
       | Some e => st_draw (StProbName class_emoji class_name is_predicted) ;;;
                   raise e
       end) ;;;
      probability_rows rows' predicted
  end.

(** [conf_label] of lines 413-424. *)
Definition reliability (c : f64) : string :=
  if fle (f64_of_Z 90) c then "Very High"
  else if fle (f64_of_Z 75) c then "High"
  else if fle (f64_of_Z 60) c then "Moderate"
  else "Low".

(** The results column (lines 391-526). *)
Definition results_column (report_btn : bool) : M unit :=
  s <- get_session ;;
  if match s !! "prediction_made" with Some v => truthy v | None => false end
  then
    t <- session_str "analysis_time" ;;
    st_draw (StSuccess ("✅ **Analysis completed at " ++ t ++ "**")) ;;;
    cls <- session_str "predicted_class" ;;
    color <- info_field cls "color" ;;
    emoji <- info_field cls "emoji" ;;
    description <- info_field cls "description" ;;
    st_draw (StResultCard emoji cls description color) ;;;
    c <- session_float "confidence" ;;
    st_draw (StMetricPct "Confidence" c) ;;;
    st_draw (StMetric "Reliability" (reliability c)) ;;;
    st_progress c ;;;
    probs <- session_dict "probabilities" ;;
    probability_rows (sorted_desc probs) cls ;;;
    action <- info_field cls "action" ;;
    st_draw (StInfo action) ;;;
    st_draw (StWarning "⚠️ **Important Medical Disclaimer**") ;;;
    st_draw (StButton "📄 Generate Report") ;;;
    if report_btn
    then st_draw (StDownload t cls c probs action)
    else ret tt
  else
    st_draw (StInfo "👈 **Upload an image and click 'Start AI Analysis' to see results**").

(** One run of [main()] (lines 218-606) for the given state of the upload
    widget and of the two buttons. *)
Definition main (uploaded_file : option UploadedFile)
    (analyze_btn report_btn : bool) : M unit :=
  st_rerun ;;;
  r <- load_model ;;
  let '(m, error) := r in
  match m with
  | None =>
      st_draw (StError "❌ Failed to load the AI model") ;;;
      st_draw (StError ("Error: " ++ match error with Some e => e | None => "None" end)) ;;;
      st_draw (StInfo "**The model file has a compatibility issue.**")
  | Some m =>
      sidebar ;;;
      upload_column m uploaded_file analyze_btn ;;;
      results_column report_btn
  end.

End WithEnv.
End Dashboard.

(* ===================================================================== *)
(** * [wsgi.py]: the WSGI entry point *)
(* ===================================================================== *)

Module Wsgi.

(** The process after [from app import app as application]: the module body
    of [app.py] binds the global [model] to [None]; [load_model_once] is
    called only under [if __name__ == '__main__'], which an import does not
    run. *)
Definition application (files_on_disk : gmap string (list byte)) : World :=
  {| disk := files_on_disk; model := None; st_cache := None;
     session_state := ∅; screen := []; next_id := 0; ticks := 0; trace := [] |}.

End Wsgi.

(* ===================================================================== *)
(** * A concrete environment and sample data *)
(* ===================================================================== *)

Module Sample.

(** A minimal uncompressed container: one byte for the file format, one for
    the mode, one each for width and height, then the samples row by row. *)
Definition format_of_tag (b : byte) : option string :=
  match Byte.to_nat b with
  | 0 => Some "PNG"
  | 1 => Some "JPEG"
  | _ => None
  end.

Definition mode_of_tag (b : byte) : option Mode :=
  match Byte.to_nat b with
  | 0 => Some L
  | 1 => Some LA
  | 2 => Some P
  | 3 => Some RGB
  | 4 => Some RGBA
  | 5 => Some CMYK
  | _ => None
  end.

(** Cuts [l] into [n] consecutive pieces of length [k]. *)
Fixpoint chunks {A} (n k : nat) (l : list A) : list (list A) :=
  match n with
  | 0 => []
  | S n' => firstn k l :: chunks n' k (skipn k l)
  end.

Definition raw_open (b : list byte) : outcome Image :=
  match b with
  | f :: m :: w :: h :: samples =>
      match format_of_tag f, mode_of_tag m with
      | Some fmt, Some md =>
          let w := Byte.to_nat w in
          let h := Byte.to_nat h in
          if Nat.eqb (length samples) (h * w * bands md)
          then Ok {| mode := md; size := (w, h); format := Some fmt;
                     px := map (chunks w (bands md))
                             (chunks h (w * bands md)
                                (map (fun s => Z.of_nat (Byte.to_nat s)) samples)) |}
          else Raise (Exn OSError "image file is truncated")
      | _, _ => Raise (Exn UnidentifiedImageError "cannot identify image file")
      end
  | _ => Raise (Exn UnidentifiedImageError "cannot identify image file")
  end.

(** A three-class network on 150x150 RGB input. *)
Definition lung_net : Net :=
  {| input_shape := [None; Some 150; Some 150; Some 3];
     output_shape := [None; Some 3];
     count_params := 3700000 |}.

(** An environment with the given behaviour of the deserializer and of the
    forward pass. *)
Definition env_with (load : list byte -> option bool -> outcome Net)
    (forward : Net -> ndarray -> outcome (list (list f32))) (np2 : bool) : Env :=
  {| image_open := raw_open;
     resample := nearest;
     keras_load := load;
     keras_compile := fun _ => Ok tt;
     keras_forward := forward;
     nep50 := np2;
     clock := fun n => f64_of_Z (Z.of_nat n);
     clock_text := fun n => pretty n |}.

(** A network answering [[0.7, 0.2, 0.1]] to every input. *)
Definition forward_const (_ : Net) (_ : ndarray) : outcome (list (list f32)) :=
  Ok [[f32_frac 7 10; f32_frac 2 10; f32_frac 1 10]].

(** Every artifact loads, in either mode. *)
Definition load_ok (_ : list byte) (_ : option bool) : outcome Net := Ok lung_net.

(** The first attempt runs out of memory; the plain call succeeds. *)
Definition load_oom_then_ok (_ : list byte) (sm : option bool) : outcome Net :=
  match sm with
  | Some _ => Raise (Exn MemoryError "")
  | None => Ok lung_net
  end.

Definition env : Env := env_with load_ok forward_const true.
Definition env_oom : Env := env_with load_oom_then_ok forward_const true.


(** A process that has just started, with an artifact on disk. *)
Definition fresh : World :=
  {| disk := {[ "best_lung_model.h5" := [x00; x01; x02] ]};
     model := None; st_cache := None; session_state := ∅; screen := [];
     next_id := 0; ticks := 0; trace := [] |}.

Definition the_model : Model := {| mid := 0; net := lung_net |}.

(** The REST process after a successful start. *)
Definition serving : World :=
  {| disk := disk fresh; model := Some the_model; st_cache := None;
     session_state := ∅; screen := []; next_id := 1; ticks := 2;
     trace := [] |}.

(** A 1x1 grayscale PNG, a 2x1 RGB JPEG and a 2x1 RGBA PNG. *)
Definition gray_bytes : list byte := [x00; x00; x01; x01; x80].
Definition rgb_bytes : list byte :=
  [x01; x03; x02; x01; x00; x80; xff; x10; x20; x30].
Definition rgba_bytes : list byte :=
  [x00; x04; x02; x01; x00; x80; xff; xff; x10; x20; x30; x40].

Definition gray_image : Image :=
  {| mode := L; size := (1, 1); format := Some "PNG"; px := [[[128%Z]]] |}.
Definition rgb_image : Image :=
  {| mode := RGB; size := (2, 1); format := Some "JPEG";
     px := [[[0; 128; 255]; [16; 32; 48]]]%Z |}.
Definition rgba_image : Image :=
  {| mode := RGBA; size := (2, 1); format := Some "PNG";
     px := [[[0; 128; 255; 255]; [16; 32; 48; 64]]]%Z |}.

Definition upload (b : list byte) : App.Request :=
  {| App.files := {[ "file" := {| App.filename := "slide.png"; App.content := b |} ]} |}.
Definition no_file : App.Request := {| App.files := ∅ |}.
Definition empty_name : App.Request :=
  {| App.files := {[ "file" := {| App.filename := ""; App.content := [] |} ]} |}.

(** The dashboard process with the model in the resource cache, and two
    uploads. *)
Definition dashboard_ready : World :=
  {| disk := disk fresh; model := None;
     st_cache := Some (Some the_model, None);
     session_state := ∅; screen := []; next_id := 1; ticks := 2; trace := [] |}.

Definition rgb_file : Dashboard.UploadedFile :=
  {| Dashboard.name := "slide.jpg"; Dashboard.content := rgb_bytes |}.
Definition gray_file : Dashboard.UploadedFile :=
  {| Dashboard.name := "scan.png"; Dashboard.content := gray_bytes |}.

(** The dashboard after a successful analysis of the RGB file. *)
Definition analysed : World :=
  snd (@Dashboard.main env (Some rgb_file) true false dashboard_ready).

(** An environment whose [compile] fails, one whose forward pass fails
    without any message, an empty disk, an upload that is no image, and the
    dashboard after a failed load. *)
Definition env_no_compile : Env :=
  {| image_open := raw_open;
     resample := nearest;
     keras_load := load_ok;
     keras_compile := fun _ => Raise (Exn ValueError "Unknown optimizer");
     keras_forward := forward_const;
     nep50 := true;
     clock := fun n => f64_of_Z (Z.of_nat n);
     clock_text := fun n => pretty n |}.

Definition forward_silent (_ : Net) (_ : ndarray) : outcome (list (list f32)) :=
  Raise (Exn ValueError "").

Definition env_silent : Env := env_with load_ok forward_silent true.

Definition no_artifact : World :=
  {| disk := ∅; model := None; st_cache := None; session_state := ∅;
     screen := []; next_id := 0; ticks := 0; trace := [] |}.

Definition junk_bytes : list byte := [xff].

Definition dashboard_failed : World :=
  {| disk := ∅; model := None;
     st_cache := Some (None, Some "Model file not found: best_lung_model.h5");
     session_state := ∅; screen := []; next_id := 0; ticks := 0; trace := [] |}.

Definition counted : World :=
  {| disk := disk fresh; model := None;
     st_cache := Some (Some the_model, None);
     session_state := {[ "analysis_count" := VInt 4 ]};
     screen := []; next_id := 1; ticks := 2; trace := [] |}.

End Sample.

(* ===================================================================== *)
(** * Vocabulary of the properties *)
(* ===================================================================== *)

(** The events a computation added to the trace. *)
Definition events_since (w w' : World) : list Event :=
  skipn (length (trace w)) (trace w').

Definition is_decode (ev : Event) : bool :=
  match ev with EvImageOpen => true | _ => false end.

Definition is_inference (ev : Event) : bool :=
  match ev with EvPredict _ _ => true | _ => false end.

Definition is_load (ev : Event) : bool :=
  match ev with EvLoadModel _ _ _ => true | _ => false end.

Definition is_successful_load (ev : Event) : bool :=
  match ev with EvLoadModel _ _ true => true | _ => false end.

(** [n] successive calls of [c]: their results and the final state. *)
Fixpoint call_n {A} (n : nat) (c : M A) (w : World) : list (outcome A) * World :=
  match n with
  | 0 => ([], w)
  | S n' =>
      let '(r, w1) := c w in
      let '(rs, w2) := call_n n' c w1 in
      (r :: rs, w2)
  end.

(** The deserialization attempts among some events: the [safe_mode]
    keyword of each and whether it succeeded. *)
Fixpoint load_attempts (evs : list Event) : list (option bool * bool) :=
  match evs with
  | [] => []
  | EvLoadModel _ sm ok :: evs' => (sm, ok) :: load_attempts evs'
  | _ :: evs' => load_attempts evs'
  end.

(** A deserialization is restricted unless safe mode is switched off. *)
Definition restricted (sm : option bool) : bool :=
  match sm with Some false => false | _ => true end.

Definition add_events (w : World) (evs : list Event) (m : option Model)
    (c : option (option Model * option string)) (ids : nat) (tks : nat) : World :=
  {| disk := disk w; model := m; st_cache := c;
     session_state := session_state w; screen := screen w;
     next_id := ids + next_id w; ticks := tks + ticks w;
     trace := trace w ++ evs |}.

(** The state [w] after a run drew [sc], left the session state [s] and
    added the events [evs]. *)
Definition redraw (w : World) (s : gmap string PyVal) (sc : list Widget)
    (evs : list Event) : World :=
  {| disk := disk w; model := model w; st_cache := st_cache w;
     session_state := s; screen := sc;
     next_id := next_id w; ticks := ticks w; trace := trace w ++ evs |}.

(** [obj[k]] on a JSON object. *)
Definition json_field (k : string) (j : App.json) : option App.json :=
  match j with
  | App.JObj fields =>
      match dict_getitem fields k with Ok v => Some v | Raise _ => None end
  | _ => None
  end.

(** The elements that show a prediction result. *)
Definition is_result (x : Widget) : bool :=
  match x with
  | StResultCard _ _ _ _ | StMetricPct _ _ | StProbRow _ _ _ _ => true
  | _ => false
  end.

(** The session state after the sidebar has run. *)
Definition with_count (s : gmap string PyVal) : gmap string PyVal :=
  match s !! "analysis_count" with
  | None => <["analysis_count" := VInt 0]> s
  | Some _ => s
  end.

Definition count_text (s : gmap string PyVal) : string :=
  match with_count s !! "analysis_count" with
  | Some (VInt z) => pretty z
  | _ => ""
  end.

Definition placeholder : Widget :=
  StInfo "👈 **Upload an image and click 'Start AI Analysis' to see results**".

(** The body and status of a successful answer of [predict]. *)
Definition success_response (r : App.Formatted) (prediction_time : f64)
    (img : Image) (timestamp : string) : App.Response :=
  {| App.body := App.JObj
       [ ("success", App.JBool true);
         ("predicted_class", App.JStr (App.predicted_class r));
         ("confidence", App.JFloat (App.confidence r));
         ("probabilities", App.json_of_floats (App.probabilities r));
         ("class_info", App.json_of_strings (App.class_info r));
         ("prediction_time", App.JFloat (py_round prediction_time 3));
         ("image_info", App.JObj
            [ ("original_width", App.JInt (Z.of_nat (width img)));
              ("original_height", App.JInt (Z.of_nat (height img)));
              ("format", App.JStr (App.format_or_unknown img)) ]);
         ("timestamp", App.JStr timestamp) ];
     App.status := 200 |}.

(** Requests handled one after the other. *)
Fixpoint serve {A B} (handler : A -> M B) (requests : list A)
    (w : World) : list (outcome B) * World :=
  match requests with
  | [] => ([], w)
  | r :: rs =>
      let '(o, w1) := handler r w in
      let '(os, w2) := serve handler rs w1 in
      (o :: os, w2)
  end.

(** [w'] differs from [w] at most by later clock readings and more events. *)
Definition advances (w w' : World) : Prop :=
  disk w' = disk w /\ model w' = model w /\ st_cache w' = st_cache w
  /\ session_state w' = session_state w /\ screen w' = screen w
  /\ next_id w' = next_id w /\ ticks w <= ticks w'
  /\ exists evs, trace w' = (trace w ++ evs)%list.

(** Two session states that agree on every key but the analysis counter. *)
Definition same_results (s s' : gmap string PyVal) : Prop :=
  forall k, k <> "analysis_count" -> s' !! k = s !! k.

(** The computation leaves every key of [st.session_state] but the
    analysis counter as it was. *)
Definition preserves_results {A} (c : M A) : Prop :=
  forall w, same_results (session_state w) (session_state (snd (c w))).





(** [w] after one more reading of the clock. *)
Definition after_tick (w : World) : World :=
  {| disk := disk w; model := model w; st_cache := st_cache w;
     session_state := session_state w; screen := screen w;
     next_id := next_id w; ticks := S (ticks w); trace := trace w |}.

(** Descending order of the values, as [<=] on floats. *)
Definition desc (x y : string * f64) : Prop := fle (snd y) (snd x) = true.

(** The resampling filter returns a pixel of the image's mode: as many
    samples as the mode has bands, each in the range of the mode. *)
Definition resample_sound (E : Env) : Prop :=
  forall img sz x y,
    wf_image img = true ->
    pixel_okb (mode img) (resample img sz x y) = true.

(** No element is a NaN. *)
Definition no_nan (xs : list f32) : Prop := Forall (fun x => is_nan x = false) xs.

(** [float(v * 100)] as the formatter computes it. *)
Definition percent {E : Env} (v : f32) : f64 := scalar_times_int nep50 v 100.

(* ===================================================================== *)
(** * Properties *)
(* ===================================================================== *)

Local Open Scope py_scope.

(** ** Proof automation *)

(** Runs a computation symbolically, resolving the lookups that [H] decides. *)
Ltac run_with H := repeat (progress (cbn; rewrite ?H)).

Ltac step := cbn [fst snd disk model st_cache session_state screen next_id
                  ticks trace].

Ltac unfold_monad :=
  unfold Dashboard.session_set, Dashboard.session_get;
  unfold try_except, bind, ret, raise, lift, emit, st_draw, st_rerun,
    get_session, set_session, get_cache, set_cache, get_model, set_model.

Ltac cmp_cases :=
  repeat match goal with
  | H : context [Z.compare ?a ?b] |- _ => destruct (Z.compare_spec a b)
  | |- context [Z.compare ?a ?b] => destruct (Z.compare_spec a b)
  | H : context [Pos.compare_cont Eq ?a ?b] |- _ =>
      change (Pos.compare_cont Eq a b) with (Pos.compare a b) in *;
      destruct (Pos.compare_spec a b)
  | |- context [Pos.compare_cont Eq ?a ?b] =>
      change (Pos.compare_cont Eq a b) with (Pos.compare a b) in *;
      destruct (Pos.compare_spec a b)
  end; simpl in *; try congruence; try lia.

Ltac float_cases x :=
  let s := fresh "s" in
  destruct x as [s | s | | s ? ?]; try destruct s.

Lemma events_since_refl w : events_since w w = [].
Proof. unfold events_since. apply skipn_all. Qed.

Lemma events_since_app w w' evs :
  trace w' = (trace w ++ evs)%list -> events_since w w' = evs.
Proof.
  intros Ht. unfold events_since. rewrite Ht.
  rewrite skipn_app, skipn_all, Nat.sub_diag. reflexivity.
Qed.

(** ** Request validation in [predict] *)

Section Validation.
Context {E : Env}.

(** C4.  While the global [model] is [None], [predict] answers every
    request with status 500 and the body
    [{"error": "Model not loaded", "success": false}], and leaves the
    process state as it was: no image is decoded and no inference is
    run. *)
Theorem predict_model_not_loaded (request : App.Request) (w : World) :
  model w = None ->
  App.predict request w = (Ok (App.error_response "Model not loaded" 500), w)
  /\ App.status (App.error_response "Model not loaded" 500) = 500
  /\ App.body (App.error_response "Model not loaded" 500)
     = App.JObj [("error", App.JStr "Model not loaded"); ("success", App.JBool false)]
  /\ forall w', snd (App.predict request w) = w' ->
       filter is_decode (events_since w w') = []
       /\ filter is_inference (events_since w w') = [].
Proof.
  intros Hm.
  assert (Hrun : App.predict request w
                 = (Ok (App.error_response "Model not loaded" 500), w)).
  { unfold App.predict, try_except, bind, get_model. rewrite Hm. reflexivity. }
  repeat split; try reflexivity; try exact Hrun.
  all: rewrite Hrun in H; simpl in H; subst w';
       rewrite events_since_refl; reflexivity.
Qed.

(** C5, as the handler implements it.  When the model is loaded, a request
    without a [file] field is answered with status 400 and the error
    [No file uploaded], and a request whose file has an empty name with
    status 400 and the error [No file selected]; in both cases the process
    state is left as it was, so nothing is decoded and no inference is
    run. *)
Theorem predict_missing_file (request : App.Request) (w : World) (m : Model) :
  model w = Some m ->
  (App.files request !! "file" = None ->
     App.predict request w = (Ok (App.error_response "No file uploaded" 400), w))
  /\ (forall file, App.files request !! "file" = Some file ->
        App.filename file = "" ->
        App.predict request w = (Ok (App.error_response "No file selected" 400), w))
  /\ App.status (App.error_response "No file uploaded" 400) = 400
  /\ App.status (App.error_response "No file selected" 400) = 400
  /\ App.body (App.error_response "No file uploaded" 400)
     = App.JObj [("error", App.JStr "No file uploaded"); ("success", App.JBool false)]
  /\ App.body (App.error_response "No file selected" 400)
     = App.JObj [("error", App.JStr "No file selected"); ("success", App.JBool false)].
Proof.
  intros Hm. repeat split.
  - intros Hf. unfold App.predict, try_except, bind, get_model.
    rewrite Hm, Hf. reflexivity.
  - intros file Hf Hn. unfold App.predict, try_except, bind, get_model.
    rewrite Hm, Hf, Hn. reflexivity.
Qed.

End Validation.

Lemma predict_model_not_loaded_witness :
  model Sample.fresh = None
  /\ @App.predict Sample.env (Sample.upload Sample.rgb_bytes) Sample.fresh
     = (Ok (App.error_response "Model not loaded" 500), Sample.fresh).
Proof.
  split; [reflexivity|].
  apply (@predict_model_not_loaded Sample.env (Sample.upload Sample.rgb_bytes)
           Sample.fresh).
  reflexivity.
Defined.

Lemma predict_missing_file_witness :
  model Sample.serving = Some Sample.the_model
  /\ @App.predict Sample.env Sample.no_file Sample.serving
     = (Ok (App.error_response "No file uploaded" 400), Sample.serving).
Proof.
  split; [reflexivity|].
  apply (@predict_missing_file Sample.env Sample.no_file Sample.serving
           Sample.the_model); reflexivity.
Defined.

(** C5 as stated fails: a request without a [file] field that arrives while
    the model is not loaded is answered with status 500, because the model
    guard comes first. *)
Lemma predict_missing_file_unloaded_500 :
  App.files Sample.no_file !! "file" = None
  /\ exists r w', @App.predict Sample.env Sample.no_file Sample.fresh = (Ok r, w')
       /\ App.status r = 500
       /\ App.status r <> 400.
Proof.
  split; [reflexivity|].
  exists (App.error_response "Model not loaded" 500), Sample.fresh.
  split; [vm_compute; reflexivity|]. split; [reflexivity|discriminate].
Qed.

(** ** Image-to-tensor preprocessing *)

Lemma byte_unit_table :
  forallb (fun n => in_unit (f32_div (f32_of_Z (Z.of_nat n)) (f32_of_Z 255)))
          (seq 0 256) = true.
Proof. vm_compute. reflexivity. Qed.

(** Dividing an 8-bit sample by 255 in float32 lands in [[0, 1]]. *)
Lemma byte_unit (v : Z) :
  (0 <= v <= 255)%Z ->
  in_unit (f32_div (f32_of_Z v) (f32_of_Z 255)) = true.
Proof.
  intros Hv. pose proof byte_unit_table as Ht.
  rewrite forallb_forall in Ht.
  specialize (Ht (Z.to_nat v)). rewrite Z2Nat.id in Ht by lia.
  apply Ht. apply in_seq. lia.
Qed.

Lemma length_concat_uniform {A} (l : list (list A)) (k : nat) :
  (forall x, In x l -> length x = k) ->
  length (concat l) = length l * k.
Proof.
  induction l as [|x l IH]; intros Hl; simpl; [reflexivity|].
  rewrite length_app, (Hl x) by (left; reflexivity).
  rewrite IH; [reflexivity|]. intros y Hy. apply Hl. right. exact Hy.
Qed.

Lemma tabulate_length {A} n (f : nat -> A) : length (tabulate n f) = n.
Proof. unfold tabulate. rewrite length_map, length_seq. reflexivity. Qed.

Lemma tabulate_In {A} n (f : nat -> A) a :
  In a (tabulate n f) -> exists i, i < n /\ a = f i.
Proof.
  unfold tabulate. rewrite in_map_iff. intros (i & <- & Hi).
  apply in_seq in Hi. exists i. split; [lia|reflexivity].
Qed.

Lemma pixel_okb_length m p : pixel_okb m p = true -> length p = bands m.
Proof.
  unfold pixel_okb. rewrite andb_true_iff, Nat.eqb_eq. tauto.
Qed.

Lemma pixel_okb_byte m p v :
  m <> I -> pixel_okb m p = true -> In v p -> (0 <= v <= 255)%Z.
Proof.
  unfold pixel_okb. rewrite andb_true_iff, forallb_forall.
  intros Hm [_ Hs] Hv. specialize (Hs v Hv).
  destruct m; try congruence; simpl in Hs;
    rewrite andb_true_iff, !Z.leb_le in Hs; exact Hs.
Qed.

Lemma wf_image_pixel img p :
  wf_image img = true -> In p (concat (px img)) ->
  pixel_okb (mode img) p = true.
Proof.
  unfold wf_image, row_okb. rewrite andb_true_iff, forallb_forall.
  intros [_ Hrows] Hp. apply in_concat in Hp as (r & Hr & Hp).
  specialize (Hrows r Hr). rewrite andb_true_iff, forallb_forall in Hrows.
  apply Hrows. exact Hp.
Qed.

Lemma In_firstn {A} (n : nat) (l : list A) (a : A) :
  In a (firstn n l) -> In a l.
Proof.
  revert l. induction n as [|n IH]; intros [|x l]; simpl; try tauto.
  intros [-> | H]; [left; reflexivity | right; apply IH; exact H].
Qed.

(** Dropping the alpha band of a well-formed RGBA image gives a well-formed
    RGB image of the same size. *)
Lemma convert_RGB_wf img :
  mode img = RGBA -> wf_image img = true -> wf_image (convert_RGB img) = true.
Proof.
  unfold wf_image, width, height. simpl. intros Hm.
  rewrite !andb_true_iff, length_map, !forallb_forall. intros [Hh Hrows].
  split; [exact Hh|]. intros r' Hr'.
  apply in_map_iff in Hr' as (r & <- & Hr). specialize (Hrows r Hr).
  unfold row_okb in *. rewrite andb_true_iff, forallb_forall in *.
  rewrite length_map. destruct Hrows as [Hw Hps]. split; [exact Hw|].
  intros p' Hp'. apply in_map_iff in Hp' as (p & <- & Hp).
  specialize (Hps p Hp). rewrite Hm in Hps.
  unfold pixel_okb, rgba2rgb in *. rewrite andb_true_iff, forallb_forall in *.
  destruct Hps as [Hl Hs]. apply Nat.eqb_eq in Hl. simpl in Hl. split.
  - apply Nat.eqb_eq. rewrite length_firstn, Hl. reflexivity.
  - intros v Hv. exact (Hs v (In_firstn 3 p v Hv)).
Qed.

Section Preprocessing.
Context {E : Env}.
Hypothesis resample_ok : resample_sound E.

Lemma resize_mode img sz : mode (resize img sz) = mode img.
Proof. reflexivity. Qed.

Lemma resize_size img sz : size (resize img sz) = sz.
Proof. reflexivity. Qed.

Lemma resize_pixel img sz p :
  wf_image img = true -> In p (concat (px (resize img sz))) ->
  pixel_okb (mode img) p = true.
Proof.
  intros Hwf Hp. apply in_concat in Hp as (r & Hr & Hp).
  simpl in Hr. apply tabulate_In in Hr as (y & _ & ->).
  apply tabulate_In in Hp as (x & _ & ->). apply resample_ok. exact Hwf.
Qed.

Lemma resize_samples_length img w h :
  wf_image img = true ->
  length (concat (concat (px (resize img (w, h))))) = h * w * bands (mode img).
Proof.
  intros Hwf.
  rewrite (length_concat_uniform _ (bands (mode img))).
  - f_equal. rewrite (length_concat_uniform _ w).
    + simpl. rewrite tabulate_length. reflexivity.
    + intros r Hr. simpl in Hr. apply tabulate_In in Hr as (y & _ & ->).
      apply tabulate_length.
  - intros p Hp. apply pixel_okb_length. eapply resize_pixel; eauto.
Qed.

(** The array computed from a well-formed three-band, 8-bit image. *)
Lemma tensor_of_rgb img w h :
  wf_image img = true -> mode img = RGB ->
  let t := div_scalar (expand_dims0 (array_of_image (resize img (w, h))))
             (f32_of_Z 255) in
  shape t = [1; h; w; 3]
  /\ length (data t) = h * w * 3
  /\ data t = map (fun v => f32_div (f32_of_Z v) (f32_of_Z 255))
                  (concat (concat (px (resize img (w, h)))))
  /\ Forall (fun x => in_unit x = true) (data t).
Proof.
  intros Hwf Hm t.
  assert (Hd : data t = map (fun v => f32_div (f32_of_Z v) (f32_of_Z 255))
                            (concat (concat (px (resize img (w, h)))))).
  { unfold t, div_scalar, expand_dims0, array_of_image. cbn [data].
    rewrite map_map. reflexivity. }
  split; [|split; [|split]].
  - unfold t, div_scalar, expand_dims0, array_of_image. cbn [shape].
    rewrite resize_mode, Hm. reflexivity.
  - rewrite Hd, length_map, resize_samples_length, Hm by exact Hwf.
    reflexivity.
  - exact Hd.
  - rewrite Hd. apply List.Forall_forall. intros x Hx.
    apply in_map_iff in Hx as (v & <- & Hv).
    apply in_concat in Hv as (p & Hp & Hv).
    apply byte_unit. apply (pixel_okb_byte (mode img) p).
    + rewrite Hm. discriminate.
    + eapply resize_pixel; eauto.
    + exact Hv.
Qed.

(** C1, as the two pipelines implement it.  For a well-formed decoded image
    of any size whose mode is RGB, or RGBA in the REST pipeline, the tensor
    handed to [predict] has shape [[1; 150; 150; 3]], holds 150*150*3 elements,
    each the corresponding 0-255 sample of the resized image divided by
    255.0 in float32, and every element lies in [[0.0, 1.0]].  In the
    dashboard pipeline the same holds for mode RGB. *)
Theorem prepare_rgb_tensor (img : Image) :
  wf_image img = true ->
  (mode img = RGB \/ mode img = RGBA ->
     let t := snd (App.prepare img) in
     shape t = [1; 150; 150; 3]
     /\ length (data t) = 150 * 150 * 3
     /\ data t = map (fun v => f32_div (f32_of_Z v) (f32_of_Z 255))
                     (concat (concat (px (resize (fst (App.prepare img)) App.IMG_SIZE))))
     /\ Forall (fun x => in_unit x = true) (data t))
  /\ (mode img = RGB ->
     let t := Dashboard.prepare img in
     shape t = [1; 150; 150; 3]
     /\ length (data t) = 150 * 150 * 3
     /\ data t = map (fun v => f32_div (f32_of_Z v) (f32_of_Z 255))
                     (concat (concat (px (resize img Dashboard.IMG_SIZE))))
     /\ Forall (fun x => in_unit x = true) (data t)).
Proof.
  intros Hwf. split.
  - intros [Hm | Hm]; unfold App.prepare, App.IMG_SIZE; rewrite Hm;
      cbn [fst snd].
    + apply (tensor_of_rgb img 150 150); assumption.
    + apply (tensor_of_rgb (convert_RGB img) 150 150);
        [apply convert_RGB_wf; assumption | reflexivity].
  - intros Hm. unfold Dashboard.prepare, Dashboard.IMG_SIZE.
    apply (tensor_of_rgb img 150 150); assumption.
Qed.

End Preprocessing.

(** Nearest-neighbour resampling is sound. *)
Lemma nearest_sound (E : Env) :
  (forall img sz x y, resample img sz x y = nearest img sz x y) ->
  resample_sound E.
Proof.
  intros HE img sz x y Hwf. rewrite HE. unfold nearest.
  set (sx := (2 * x + 1) * width img / (2 * fst sz)).
  set (sy := (2 * y + 1) * height img / (2 * snd sz)).
  assert (Hdef : pixel_okb (mode img) (repeat 0%Z (bands (mode img))) = true)
    by (destruct (mode img); reflexivity).
  destruct (nth_in_or_default sy (px img) []) as [Hr | Hr].
  - destruct (nth_in_or_default sx (nth sy (px img) [])
                (repeat 0%Z (bands (mode img)))) as [Hp | Hp].
    + apply wf_image_pixel; [exact Hwf|]. apply in_concat. eauto.
    + rewrite Hp. exact Hdef.
  - rewrite Hr. destruct sx; exact Hdef.
Qed.

Lemma sample_resample_sound : resample_sound Sample.env.
Proof. apply nearest_sound. reflexivity. Qed.

Lemma prepare_rgb_tensor_witness :
  wf_image Sample.rgba_image = true
  /\ shape (snd (@App.prepare Sample.env Sample.rgba_image)) = [1; 150; 150; 3].
Proof.
  split; [reflexivity|].
  destruct (proj1 (@prepare_rgb_tensor Sample.env sample_resample_sound
                     Sample.rgba_image eq_refl) (or_intror eq_refl))
    as (Hshape & _).
  exact Hshape.
Defined.

(** C1 as stated fails for other colour modes: a 1x1 grayscale image
    decodes successfully, and the tensor built from it has shape
    [[1; 150; 150]] in both pipelines. *)
Lemma prepare_grayscale_shape :
  image_open (Env := Sample.env) Sample.gray_bytes = Ok Sample.gray_image
  /\ wf_image Sample.gray_image = true
  /\ shape (snd (@App.prepare Sample.env Sample.gray_image)) = [1; 150; 150]
  /\ shape (@Dashboard.prepare Sample.env Sample.gray_image) = [1; 150; 150]
  /\ shape (snd (@App.prepare Sample.env Sample.gray_image)) <> [1; 150; 150; 3].
Proof.
  repeat split; try reflexivity. discriminate.
Qed.

(** C6 at the failing input.  A 2x1 RGBA image is flattened to three
    channels by the REST pipeline, but the dashboard pipeline passes all
    four bands on: its tensor has shape [[1; 150; 150; 4]], the model
    rejects it, and [predict_image] returns the error. *)
Lemma dashboard_rgba_not_flattened :
  image_open (Env := Sample.env) Sample.rgba_bytes = Ok Sample.rgba_image
  /\ shape (snd (@App.prepare Sample.env Sample.rgba_image)) = [1; 150; 150; 3]
  /\ shape (@Dashboard.prepare Sample.env Sample.rgba_image) = [1; 150; 150; 4]
  /\ forall w,
       fst (@Dashboard.predict_image Sample.env Sample.the_model Sample.rgba_image w)
       = Ok (None, None, None,
             Some "Input 0 of layer is incompatible with the layer").
Proof.
  repeat split; try reflexivity.
Qed.

(** ** Order on floats *)

Lemma fle_flt_trans b a c : fle b a = true -> flt a c = true -> flt b c = true.
Proof.
  unfold fle, flt, SFleb, SFltb, SFcompare.
  float_cases a; float_cases b; float_cases c; simpl; try congruence;
    intros H1 H2; cmp_cases.
Qed.

Lemma fle_total x y :
  is_nan x = false -> is_nan y = false -> fle x y = false -> flt y x = true.
Proof.
  unfold fle, flt, SFleb, SFltb, SFcompare.
  float_cases x; float_cases y; simpl; try congruence; intros _ _ H; cmp_cases.
Qed.

Lemma flt_fle x y : flt x y = true -> fle x y = true.
Proof.
  unfold fle, flt, SFleb, SFltb. destruct (SFcompare x y) as [[]|]; congruence.
Qed.

Lemma fle_refl x : is_nan x = false -> fle x x = true.
Proof.
  unfold fle, SFleb, SFcompare.
  float_cases x; simpl; try congruence; intros _; cmp_cases.
Qed.

(** ** [np.argmax] returns the first index of the maximum *)

Lemma argmax_scan_spec (xs : list f32) :
  forall (pre : list f32) (mp : f32) (mi : nat),
    no_nan xs ->
    nth_error pre mi = Some mp ->
    (forall j u, nth_error pre j = Some u -> fle u mp = true) ->
    (forall j u, j < mi -> nth_error pre j = Some u -> flt u mp = true) ->
    exists v,
      nth_error (pre ++ xs)%list (argmax_scan xs (length pre) mp mi) = Some v
      /\ (forall j u, nth_error (pre ++ xs)%list j = Some u -> fle u v = true)
      /\ (forall j u, j < argmax_scan xs (length pre) mp mi ->
            nth_error (pre ++ xs)%list j = Some u -> flt u v = true).
Proof.
  induction xs as [|x xs IH]; intros pre mp mi Hnan Hmp Hle Hlt.
  - simpl. rewrite app_nil_r. exists mp. auto.
  - apply Forall_cons_iff in Hnan as [Hx Hnan].
    assert (Hlen : length (pre ++ [x])%list = S (length pre))
      by (rewrite length_app; simpl; lia).
    replace (pre ++ x :: xs)%list with ((pre ++ [x]) ++ xs)%list
      by (rewrite <- app_assoc; reflexivity).
    simpl. destruct (fle x mp) eqn:Hxmp.
    + rewrite <- Hlen. apply IH; auto.
      * rewrite nth_error_app1; [exact Hmp|].
        apply nth_error_Some. congruence.
      * intros j u Hj. destruct (Nat.lt_ge_cases j (length pre)) as [Hlt'|Hge].
        -- rewrite nth_error_app1 in Hj by exact Hlt'. eauto.
        -- rewrite nth_error_app2 in Hj by exact Hge.
           destruct (j - length pre) as [|k]; simpl in Hj.
           ++ congruence.
           ++ destruct k; discriminate.
      * intros j u Hjm Hj.
        assert (mi < length pre) by (apply nth_error_Some; congruence).
        rewrite nth_error_app1 in Hj by lia. eauto.
    + rewrite Hx.
      assert (Hgt : flt mp x = true).
      { apply fle_total; auto.
        destruct mp; try reflexivity.
        specialize (Hle mi S754_nan Hmp). discriminate Hle. }
      rewrite <- Hlen. apply IH; auto.
      * rewrite nth_error_app2 by lia. rewrite Nat.sub_diag. reflexivity.
      * intros j u Hj. destruct (Nat.lt_ge_cases j (length pre)) as [Hlt'|Hge].
        -- rewrite nth_error_app1 in Hj by exact Hlt'.
           apply flt_fle. eapply fle_flt_trans; eauto.
        -- rewrite nth_error_app2 in Hj by exact Hge.
           destruct (j - length pre) as [|k]; simpl in Hj.
           ++ injection Hj as <-. apply fle_refl. exact Hx.
           ++ destruct k; discriminate.
      * intros j u Hjm Hj. rewrite nth_error_app1 in Hj by exact Hjm.
        eapply fle_flt_trans; eauto.
Qed.

(** On a non-empty array without NaN, [argmax] returns an index holding a
    value that no element exceeds and that every earlier element is
    strictly below: the first occurrence of the maximum. *)
Lemma argmax_first_max (xs : list f32) :
  no_nan xs -> xs <> [] ->
  exists idx v,
    argmax xs = Ok idx
    /\ nth_error xs idx = Some v
    /\ (forall j u, nth_error xs j = Some u -> fle u v = true)
    /\ (forall j u, j < idx -> nth_error xs j = Some u -> flt u v = true).
Proof.
  intros Hnan Hne. destruct xs as [|x xs]; [congruence|].
  apply Forall_cons_iff in Hnan as [Hx Hnan].
  destruct (argmax_scan_spec xs [x] x 0 Hnan eq_refl) as (v & Hv & Hle & Hlt).
  - intros [|[|j]] u Hj; simpl in Hj; try discriminate.
    injection Hj as <-. apply fle_refl. exact Hx.
  - intros j u Hj. lia.
  - exists (argmax_scan xs 1 x 0), v. simpl in *. rewrite Hx. auto.
Qed.

(** ** The result formatter *)

Section Formatter.
Context {E : Env}.

Lemma probabilities_of_three (a b c : f32) (rest : list f32) :
  App.probabilities_of (a :: b :: c :: rest) (seq 0 (length App.CLASS_NAMES)) []
  = Ok [("Adenocarcinoma", percent a); ("Normal", percent b);
        ("Squamous Cell Carcinoma", percent c)].
Proof. reflexivity. Qed.

Lemma class_info_defined (idx : nat) (label : string) :
  nth_error App.CLASS_NAMES idx = Some label ->
  exists ci, dict_getitem App.CLASS_INFO label = Ok ci.
Proof.
  unfold App.CLASS_NAMES.
  destruct idx as [|[|[|idx]]]; simpl; intros H;
    try (destruct idx; discriminate);
    injection H as <-; eexists; reflexivity.
Qed.

(** What [format_result] returns on a row with at least three entries whose
    [argmax] lies among the first three. *)
Lemma format_result_three (a b c : f32) (rest : list f32) (idx : nat) (v : f32)
    (label : string) :
  argmax (a :: b :: c :: rest) = Ok idx ->
  nth_error (a :: b :: c :: rest) idx = Some v ->
  nth_error App.CLASS_NAMES idx = Some label ->
  exists ci,
    dict_getitem App.CLASS_INFO label = Ok ci
    /\ App.format_result [a :: b :: c :: rest]
       = Ok {| App.predicted_class := label;
               App.confidence := py_round (percent v) 2;
               App.probabilities :=
                 [("Adenocarcinoma", py_round (percent a) 2);
                  ("Normal", py_round (percent b) 2);
                  ("Squamous Cell Carcinoma", py_round (percent c) 2)];
               App.class_info := ci |}.
Proof.
  intros Harg Hv Hlabel.
  destruct (class_info_defined idx label Hlabel) as (ci & Hci).
  exists ci. split; [exact Hci|].
  unfold App.format_result.
  change (getitem [a :: b :: c :: rest] 0) with (Ok (a :: b :: c :: rest)).
  cbv iota beta. rewrite Harg.
  unfold list_getitem at 1. rewrite Hlabel.
  unfold getitem at 1. rewrite Hv.
  rewrite probabilities_of_three, Hci. reflexivity.
Qed.

(** C2.  On a three-element vector without NaN the formatter selects the
    first index that attains the maximum, reports the label at that index
    of [[Adenocarcinoma; Normal; Squamous Cell Carcinoma]], the confidence
    [round(value * 100, 2)] and the distribution mapping each label to
    [round(value * 100, 2)], each entry rounded on its own.  In particular
    [[0.7, 0.2, 0.1]] gives Adenocarcinoma with confidence 70.0 and the
    distribution 70.0 / 20.0 / 10.0, and [[0.5, 0.5, 0.0]] gives index 0,
    Adenocarcinoma. *)
Theorem format_result_argmax_first :
  (forall a b c : f32,
     is_nan a = false -> is_nan b = false -> is_nan c = false ->
     exists idx v label ci,
       argmax [a; b; c] = Ok idx
       /\ nth_error [a; b; c] idx = Some v
       /\ (forall j u, nth_error [a; b; c] j = Some u -> fle u v = true)
       /\ (forall j u, j < idx -> nth_error [a; b; c] j = Some u -> flt u v = true)
       /\ nth_error App.CLASS_NAMES idx = Some label
       /\ App.format_result [[a; b; c]]
          = Ok {| App.predicted_class := label;
                  App.confidence := py_round (percent v) 2;
                  App.probabilities :=
                    [("Adenocarcinoma", py_round (percent a) 2);
                     ("Normal", py_round (percent b) 2);
                     ("Squamous Cell Carcinoma", py_round (percent c) 2)];
                  App.class_info := ci |})
  /\ (exists ci,
        App.format_result [[f32_frac 7 10; f32_frac 2 10; f32_frac 1 10]]
        = Ok {| App.predicted_class := "Adenocarcinoma";
                App.confidence := f64_of_Z 70;
                App.probabilities :=
                  [("Adenocarcinoma", f64_of_Z 70);
                   ("Normal", f64_of_Z 20);
                   ("Squamous Cell Carcinoma", f64_of_Z 10)];
                App.class_info := ci |})
  /\ (argmax [f32_frac 5 10; f32_frac 5 10; f32_of_Z 0] = Ok 0
      /\ exists r,
           App.format_result [[f32_frac 5 10; f32_frac 5 10; f32_of_Z 0]] = Ok r
           /\ App.predicted_class r = "Adenocarcinoma").
Proof.
  split; [|split].
  - intros a b c Ha Hb Hc.
    destruct (argmax_first_max [a; b; c]) as (idx & v & Harg & Hv & Hle & Hlt).
    { repeat constructor; assumption. }
    { discriminate. }
    assert (Hidx : idx < 3).
    { change 3 with (length [a; b; c]). apply nth_error_Some. congruence. }
    assert (Hlabel : exists label, nth_error App.CLASS_NAMES idx = Some label).
    { destruct idx as [|[|[|idx]]]; simpl; eauto. lia. }
    destruct Hlabel as (label & Hlabel).
    destruct (format_result_three a b c [] idx v label Harg Hv Hlabel)
      as (ci & _ & Hfmt).
    exists idx, v, label, ci. repeat split; auto.
  - unfold App.format_result, App.probabilities_of, percent, scalar_times_int.
    destruct nep50; vm_compute; eexists; reflexivity.
  - split; [vm_compute; reflexivity|].
    unfold App.format_result, App.probabilities_of, percent, scalar_times_int.
    destruct nep50; vm_compute; eexists; split; reflexivity.
Qed.

(** C9, as the formatter implements it.  There is no check of the vector
    length against the taxonomy.  An empty vector fails with the
    [ValueError] of [argmax]; a vector of one or two entries fails with an
    [IndexError]; a vector of more than three entries fails with an
    [IndexError] when its maximum lies at index 3 or later, and otherwise
    is formatted from its first three entries alone. *)
Theorem format_result_wrong_length (p : list f32) :
  length p <> 3 ->
  (p = [] ->
     exists e, App.format_result [p] = Raise e /\ exn_cls e = ValueError)
  /\ (0 < length p < 3 ->
     exists e, App.format_result [p] = Raise e /\ exn_cls e = IndexError)
  /\ (3 < length p ->
     forall idx, argmax p = Ok idx ->
       (3 <= idx ->
          exists e, App.format_result [p] = Raise e /\ exn_cls e = IndexError)
       /\ (idx < 3 ->
          exists r a b c rest,
            p = a :: b :: c :: rest
            /\ App.format_result [p] = Ok r
            /\ App.probabilities r
               = [("Adenocarcinoma", py_round (percent a) 2);
                  ("Normal", py_round (percent b) 2);
                  ("Squamous Cell Carcinoma", py_round (percent c) 2)])).
Proof.
  intros Hlen. split; [|split].
  - intros ->. eexists. split; reflexivity.
  - intros Hl. destruct p as [|a [|b [|c p]]]; simpl in Hl; try lia.
    + unfold App.format_result. simpl.
      destruct (is_nan a); simpl; eexists; split; reflexivity.
    + unfold App.format_result. simpl.
      destruct (is_nan a); simpl; [eexists; split; reflexivity|].
      destruct (fle b a); simpl; [eexists; split; reflexivity|].
      destruct (is_nan b); simpl; eexists; split; reflexivity.
  - intros Hl idx Harg. destruct p as [|a [|b [|c rest]]]; simpl in Hl; try lia.
    split.
    + intros Hidx. unfold App.format_result.
      change (getitem [a :: b :: c :: rest] 0) with (Ok (a :: b :: c :: rest)).
      cbv iota beta. rewrite Harg.
      destruct idx as [|[|[|idx]]]; try lia.
      unfold list_getitem, App.CLASS_NAMES.
      destruct idx; eexists; split; reflexivity.
    + intros Hidx.
      assert (Hv : exists v, nth_error (a :: b :: c :: rest) idx = Some v).
      { destruct idx as [|[|[|idx]]]; simpl; eauto. lia. }
      assert (Hlabel : exists label, nth_error App.CLASS_NAMES idx = Some label).
      { destruct idx as [|[|[|idx]]]; simpl; eauto. lia. }
      destruct Hv as (v & Hv). destruct Hlabel as (label & Hlabel).
      destruct (format_result_three a b c rest idx v label Harg Hv Hlabel)
        as (ci & _ & Hfmt).
      eexists _, a, b, c, rest. split; [reflexivity|]. split; [exact Hfmt|].
      reflexivity.
Qed.

End Formatter.

Lemma format_result_argmax_first_witness :
  is_nan (f32_frac 2 10) = false
  /\ exists idx, argmax [f32_frac 2 10; f32_frac 7 10; f32_frac 7 10] = Ok idx.
Proof.
  split; [reflexivity|].
  destruct (proj1 (@format_result_argmax_first Sample.env)
              (f32_frac 2 10) (f32_frac 7 10) (f32_frac 7 10)
              eq_refl eq_refl eq_refl)
    as (idx & _ & _ & _ & Harg & _).
  exists idx. exact Harg.
Defined.

Lemma format_result_wrong_length_witness :
  length [f32_frac 7 10; f32_frac 3 10] <> 3
  /\ exists e,
       @App.format_result Sample.env [[f32_frac 7 10; f32_frac 3 10]] = Raise e
       /\ exn_cls e = IndexError.
Proof.
  split; [discriminate|].
  apply (@format_result_wrong_length Sample.env [f32_frac 7 10; f32_frac 3 10]).
  - discriminate.
  - simpl. lia.
Defined.

(** C9 as stated fails: a four-element vector whose maximum is among the
    first three entries is formatted without any error, and the fourth
    entry is silently left out of the distribution. *)
Lemma format_result_truncates :
  length [f32_frac 7 10; f32_frac 1 10; f32_frac 1 10; f32_frac 1 10] <> 3
  /\ exists r,
       @App.format_result Sample.env
          [[f32_frac 7 10; f32_frac 1 10; f32_frac 1 10; f32_frac 1 10]] = Ok r
       /\ App.predicted_class r = "Adenocarcinoma"
       /\ App.probabilities r
          = [("Adenocarcinoma", f64_of_Z 70); ("Normal", f64_of_Z 10);
             ("Squamous Cell Carcinoma", f64_of_Z 10)].
Proof.
  split; [discriminate|].
  eexists. split; [vm_compute; reflexivity|]. split; reflexivity.
Qed.

(** ** Model life cycle *)

Section LifeCycle.
Context {E : Env}.

Let P := App.MODEL_PATH.

(** What the first call of [load_model_once] does when the artifact is on
    disk: the outcome and the state, by the behaviour of the
    deserializer. *)
Lemma load_model_once_fresh (w : World) (b : list byte) :
  model w = None -> disk w !! App.MODEL_PATH = Some b ->
  App.load_model_once w =
    match keras_load b (Some false) with
    | Ok n =>
        let m := {| mid := next_id w; net := n |} in
        (match keras_compile n with
         | Ok _ => Ok (Some m)
         | Raise e => if is_Exception e then Ok None else Raise e
         end,
         add_events w [EvExists P; EvGetsize P; EvLoadModel P (Some false) true;
                       EvCompile (next_id w)] (Some m) (st_cache w) 1 2)
    | Raise _ =>
        match keras_load b None with
        | Ok n =>
            let m := {| mid := next_id w; net := n |} in
            (match keras_compile n with
             | Ok _ => Ok (Some m)
             | Raise e => if is_Exception e then Ok None else Raise e
             end,
             add_events w [EvExists P; EvGetsize P; EvLoadModel P (Some false) false;
                           EvLoadModel P None true; EvCompile (next_id w)]
               (Some m) (st_cache w) 1 2)
        | Raise e =>
            (if is_Exception e then Ok None else Raise e,
             add_events w [EvExists P; EvGetsize P; EvLoadModel P (Some false) false;
                           EvLoadModel P None false] None (st_cache w) 0 1)
        end
    end.
Proof.
  intros Hm Hb. destruct w as [d mo c s sc nid tk tr]. simpl in Hm, Hb. subst mo.
  unfold App.load_model_once, try_except, bind, get_model, path_exists,
    path_getsize, time_time, load_model_file, model_compile, set_model,
    fresh_id, tick, emit, lift, ret, raise, add_events, P.
  run_with Hb.
  destruct (keras_load b (Some false)) as [n|e1]; run_with Hb.
  - destruct (keras_compile n) as [[]|e]; run_with Hb; rewrite <- ?app_assoc;
      try destruct (is_Exception e); reflexivity.
  - destruct (keras_load b None) as [n|e2]; run_with Hb.
    + destruct (keras_compile n) as [[]|e]; run_with Hb; rewrite <- ?app_assoc;
        try destruct (is_Exception e); reflexivity.
    + rewrite <- ?app_assoc. destruct (is_Exception e2); reflexivity.
Qed.

Lemma load_model_once_missing (w : World) :
  model w = None -> disk w !! App.MODEL_PATH = None ->
  App.load_model_once w
  = (Ok None, add_events w [EvExists P] None (st_cache w) 0 0).
Proof.
  intros Hm Hb. destruct w as [d mo c s sc nid tk tr]. simpl in Hm, Hb. subst mo.
  unfold App.load_model_once, try_except, bind, get_model, path_exists,
    emit, ret, raise, add_events, P.
  run_with Hb. reflexivity.
Qed.

Lemma load_model_once_loaded (w : World) (m : Model) :
  model w = Some m -> App.load_model_once w = (Ok (Some m), w).
Proof.
  intros Hm. unfold App.load_model_once, bind, get_model. rewrite Hm.
  reflexivity.
Qed.

(** A successful call leaves the returned instance in the global. *)
Lemma load_model_once_sets_global (w w1 : World) (m : Model) :
  App.load_model_once w = (Ok (Some m), w1) -> model w1 = Some m.
Proof.
  intros H. destruct (model w) as [m0|] eqn:Hm.
  - rewrite (load_model_once_loaded w m0 Hm) in H. congruence.
  - destruct (disk w !! App.MODEL_PATH) as [b|] eqn:Hb.
    + rewrite (load_model_once_fresh w b Hm Hb) in H.
      destruct (keras_load b (Some false)) as [n|e1].
      * destruct (keras_compile n) as [[]|e]; [|destruct (is_Exception e)];
          cbv zeta in H; try discriminate.
        injection H as <- <-. reflexivity.
      * destruct (keras_load b None) as [n|e2].
        -- destruct (keras_compile n) as [[]|e]; [|destruct (is_Exception e)];
             cbv zeta in H; try discriminate.
           injection H as <- <-. reflexivity.
        -- destruct (is_Exception e2); discriminate.
    + rewrite (load_model_once_missing w Hm Hb) in H. discriminate.
Qed.

(** In a process that has not loaded the model, a successful call
    deserializes successfully exactly once. *)
Lemma load_model_once_one_load (w w1 : World) (m : Model) :
  model w = None -> App.load_model_once w = (Ok (Some m), w1) ->
  length (filter is_successful_load (events_since w w1)) = 1.
Proof.
  intros Hm H. destruct (disk w !! App.MODEL_PATH) as [b|] eqn:Hb.
  - rewrite (load_model_once_fresh w b Hm Hb) in H.
    destruct (keras_load b (Some false)) as [n|e1].
    + destruct (keras_compile n) as [[]|e]; [|destruct (is_Exception e)];
        cbv zeta in H; try discriminate.
      injection H as _ <-. erewrite events_since_app; [|reflexivity].
      reflexivity.
    + destruct (keras_load b None) as [n|e2].
      * destruct (keras_compile n) as [[]|e]; [|destruct (is_Exception e)];
          cbv zeta in H; try discriminate.
        injection H as _ <-. erewrite events_since_app; [|reflexivity].
        reflexivity.
      * destruct (is_Exception e2); discriminate.
  - rewrite (load_model_once_missing w Hm Hb) in H. discriminate.
Qed.

Lemma call_n_fixed {A} (c : M A) (w : World) (r : outcome A) (n : nat) :
  c w = (r, w) -> call_n n c w = (repeat r n, w).
Proof.
  intros H. induction n as [|n IH]; simpl; [reflexivity|].
  rewrite H, IH. reflexivity.
Qed.

(** What the first call of the dashboard's [load_model] does when the
    artifact is on disk. *)
Lemma load_model_fresh (w : World) (b : list byte) :
  st_cache w = None -> disk w !! Dashboard.MODEL_PATH = Some b ->
  Dashboard.load_model w =
    match keras_load b None with
    | Ok n =>
        let m := {| mid := next_id w; net := n |} in
        let evs := [EvExists P; EvGetsize P; EvLoadModel P None true;
                    EvCompile (next_id w)] in
        match keras_compile n with
        | Ok _ =>
            (Ok (Some m, None),
             add_events w evs (model w) (Some (Some m, None)) 1 2)
        | Raise e =>
            if is_Exception e
            then (Ok (None, Some (str e)),
                  add_events w evs (model w) (Some (None, Some (str e))) 1 2)
            else (Raise e, add_events w evs (model w) None 1 2)
        end
    | Raise e =>
        let evs := [EvExists P; EvGetsize P; EvLoadModel P None false] in
        if is_Exception e
        then (Ok (None, Some (str e)),
              add_events w evs (model w) (Some (None, Some (str e))) 0 1)
        else (Raise e, add_events w evs (model w) None 0 1)
    end.
Proof.
  intros Hc Hb. destruct w as [d mo c s sc nid tk tr]. simpl in Hc, Hb. subst c.
  unfold Dashboard.load_model, Dashboard.cache_resource,
    Dashboard.load_model_body, try_except, bind, get_cache, set_cache,
    path_exists, path_getsize, time_time, load_model_file, model_compile,
    fresh_id, tick, emit, lift, ret, raise, add_events, P.
  run_with Hb.
  destruct (keras_load b None) as [n|e1]; run_with Hb.
  - destruct (keras_compile n) as [[]|e]; run_with Hb; rewrite <- ?app_assoc;
      try destruct (is_Exception e); reflexivity.
  - rewrite <- ?app_assoc. destruct (is_Exception e1); reflexivity.
Qed.

Lemma load_model_missing (w : World) :
  st_cache w = None -> disk w !! Dashboard.MODEL_PATH = None ->
  exists msg w1, Dashboard.load_model w = (Ok (None, Some msg), w1).
Proof.
  intros Hc Hb. destruct w as [d mo c s sc nid tk tr]. simpl in Hc, Hb. subst c.
  unfold Dashboard.load_model, Dashboard.cache_resource,
    Dashboard.load_model_body, try_except, bind, get_cache, set_cache,
    path_exists, emit, ret, raise.
  run_with Hb. eauto.
Qed.

Lemma load_model_cached (w : World) (r : option Model * option string) :
  st_cache w = Some r -> Dashboard.load_model w = (Ok r, w).
Proof.
  intros Hc. unfold Dashboard.load_model, Dashboard.cache_resource, bind,
    get_cache. rewrite Hc. reflexivity.
Qed.

Lemma load_model_sets_cache (w w1 : World) (m : Model) (err : option string) :
  Dashboard.load_model w = (Ok (Some m, err), w1) ->
  st_cache w1 = Some (Some m, err).
Proof.
  intros H. destruct (st_cache w) as [r|] eqn:Hc.
  - rewrite (load_model_cached w r Hc) in H. congruence.
  - destruct (disk w !! Dashboard.MODEL_PATH) as [b|] eqn:Hb.
    + rewrite (load_model_fresh w b Hc Hb) in H.
      destruct (keras_load b None) as [n|e1].
      * destruct (keras_compile n) as [[]|e]; [|destruct (is_Exception e)];
          cbv zeta in H; try discriminate.
        injection H as <- <- <-. reflexivity.
      * cbv zeta in H. destruct (is_Exception e1); discriminate.
    + destruct (load_model_missing w Hc Hb) as (msg & w2 & H2).
      rewrite H2 in H. discriminate.
Qed.

Lemma load_model_one_load (w w1 : World) (m : Model) (err : option string) :
  st_cache w = None -> Dashboard.load_model w = (Ok (Some m, err), w1) ->
  length (filter is_successful_load (events_since w w1)) = 1.
Proof.
  intros Hc H. destruct (disk w !! Dashboard.MODEL_PATH) as [b|] eqn:Hb.
  - rewrite (load_model_fresh w b Hc Hb) in H.
    destruct (keras_load b None) as [n|e1].
    + destruct (keras_compile n) as [[]|e]; [|destruct (is_Exception e)];
        cbv zeta in H; try discriminate.
      injection H as _ _ <-. erewrite events_since_app; [|reflexivity].
      reflexivity.
    + cbv zeta in H. destruct (is_Exception e1); discriminate.
  - destruct (load_model_missing w Hc Hb) as (msg & w2 & H2).
    rewrite H2 in H. discriminate.
Qed.

(** C3.  Once a call of the load operation has returned a model instance,
    every later call returns that same instance and leaves the process
    state untouched: no existence check, no read of the file, no
    deserialization.  Starting from a process without a model, any number
    of calls therefore contains exactly one successful deserialization.
    This holds for [load_model_once] of the REST API and for the cached
    [load_model] of the dashboard. *)
Theorem load_idempotent :
  (forall w m w1 n,
     App.load_model_once w = (Ok (Some m), w1) ->
     call_n n App.load_model_once w1 = (repeat (Ok (Some m)) n, w1)
     /\ events_since w1 (snd (call_n n App.load_model_once w1)) = [])
  /\ (forall w m w1 n,
     model w = None ->
     App.load_model_once w = (Ok (Some m), w1) ->
     call_n (S n) App.load_model_once w = (repeat (Ok (Some m)) (S n), w1)
     /\ length (filter is_successful_load
                  (events_since w (snd (call_n (S n) App.load_model_once w)))) = 1)
  /\ (forall w m err w1 n,
     Dashboard.load_model w = (Ok (Some m, err), w1) ->
     call_n n Dashboard.load_model w1 = (repeat (Ok (Some m, err)) n, w1)
     /\ events_since w1 (snd (call_n n Dashboard.load_model w1)) = [])
  /\ (forall w m err w1 n,
     st_cache w = None ->
     Dashboard.load_model w = (Ok (Some m, err), w1) ->
     call_n (S n) Dashboard.load_model w = (repeat (Ok (Some m, err)) (S n), w1)
     /\ length (filter is_successful_load
                  (events_since w (snd (call_n (S n) Dashboard.load_model w)))) = 1).
Proof.
  assert (Ha : forall w m w1 n,
             App.load_model_once w = (Ok (Some m), w1) ->
             call_n n App.load_model_once w1 = (repeat (Ok (Some m)) n, w1)).
  { intros w m w1 n H. apply call_n_fixed. apply load_model_once_loaded.
    eapply load_model_once_sets_global; eauto. }
  assert (Hd : forall w m err w1 n,
             Dashboard.load_model w = (Ok (Some m, err), w1) ->
             call_n n Dashboard.load_model w1 = (repeat (Ok (Some m, err)) n, w1)).
  { intros w m err w1 n H. apply call_n_fixed. apply load_model_cached.
    eapply load_model_sets_cache; eauto. }
  split; [|split; [|split]].
  - intros w m w1 n H. split; [eauto|].
    rewrite (Ha w m w1 n H). apply events_since_refl.
  - intros w m w1 n Hm H.
    assert (Hc : call_n (S n) App.load_model_once w
                 = (repeat (Ok (Some m)) (S n), w1)).
    { simpl. rewrite H, (Ha w m w1 n H). reflexivity. }
    split; [exact Hc|]. rewrite Hc. eapply load_model_once_one_load; eauto.
  - intros w m err w1 n H. split; [eauto|].
    rewrite (Hd w m err w1 n H). apply events_since_refl.
  - intros w m err w1 n Hcache H.
    assert (Hc : call_n (S n) Dashboard.load_model w
                 = (repeat (Ok (Some m, err)) (S n), w1)).
    { simpl. rewrite H, (Hd w m err w1 n H). reflexivity. }
    split; [exact Hc|]. rewrite Hc. eapply load_model_one_load; eauto.
Qed.

(** C7, as the two load operations implement it.  When the artifact is on
    disk and no model is loaded, [load_model_once] first deserializes with
    [safe_mode=False]; when that attempt raises anything at all it
    deserializes the same file once more without the [safe_mode] argument;
    there is no other attempt.  The dashboard's [load_model] deserializes
    once, without the [safe_mode] argument. *)
Theorem load_attempt_order (w : World) (b : list byte) :
  disk w !! App.MODEL_PATH = Some b ->
  (model w = None ->
     load_attempts (events_since w (snd (App.load_model_once w)))
     = if is_ok (keras_load b (Some false))
       then [(Some false, true)]
       else [(Some false, false); (None, is_ok (keras_load b None))])
  /\ (st_cache w = None ->
     load_attempts (events_since w (snd (Dashboard.load_model w)))
     = [(None, is_ok (keras_load b None))]).
Proof.
  intros Hb. split.
  - intros Hm. rewrite (load_model_once_fresh w b Hm Hb).
    destruct (keras_load b (Some false)) as [n|e1]; cbn [is_ok].
    + cbv zeta. cbn [snd]. (erewrite events_since_app; [|reflexivity]); reflexivity.
    + destruct (keras_load b None) as [n|e2]; cbv zeta; cbn [snd is_ok];
        (erewrite events_since_app; [|reflexivity]); reflexivity.
  - intros Hc. rewrite (load_model_fresh w b Hc Hb).
    destruct (keras_load b None) as [n|e1]; cbv zeta; cbn [is_ok].
    + destruct (keras_compile n) as [[]|e]; [|destruct (is_Exception e)];
        cbn [snd]; (erewrite events_since_app; [|reflexivity]); reflexivity.
    + destruct (is_Exception e1); cbn [snd];
        (erewrite events_since_app; [|reflexivity]); reflexivity.
Qed.

End LifeCycle.

Lemma load_idempotent_witness :
  exists w1,
    @App.load_model_once Sample.env Sample.fresh = (Ok (Some Sample.the_model), w1)
    /\ call_n 3 (@App.load_model_once Sample.env) w1
       = (repeat (Ok (Some Sample.the_model)) 3, w1).
Proof.
  eexists. split; [vm_compute; reflexivity|].
  apply (proj1 (@load_idempotent Sample.env) Sample.fresh Sample.the_model _ 3).
  vm_compute. reflexivity.
Defined.

Lemma load_attempt_order_witness :
  disk Sample.fresh !! App.MODEL_PATH = Some [x00; x01; x02]
  /\ load_attempts (events_since Sample.fresh
                      (snd (@App.load_model_once Sample.env_oom Sample.fresh)))
     = [(Some false, false); (None, true)].
Proof.
  split; [reflexivity|].
  apply (proj1 (@load_attempt_order Sample.env_oom Sample.fresh [x00; x01; x02]
                  eq_refl) eq_refl).
Defined.

(** C7 as stated fails.  The first deserialization attempt of
    [load_model_once] passes [safe_mode=False], which is the unrestricted
    mode; and when that attempt fails for a reason that has nothing to do
    with compatibility (here it runs out of memory), the second attempt is
    made all the same. *)
Lemma load_first_attempt_unrestricted :
  (exists w1,
     @App.load_model_once Sample.env Sample.fresh
     = (Ok (Some Sample.the_model), w1)
     /\ load_attempts (events_since Sample.fresh w1) = [(Some false, true)]
     /\ map (fun a => restricted (fst a)) (load_attempts (events_since Sample.fresh w1))
        = [false])
  /\ keras_load (Env := Sample.env_oom) [x00; x01; x02] (Some false)
     = Raise (Exn MemoryError "")
  /\ (exists w1,
        @App.load_model_once Sample.env_oom Sample.fresh
        = (Ok (Some Sample.the_model), w1)
        /\ load_attempts (events_since Sample.fresh w1)
           = [(Some false, false); (None, true)]).
Proof.
  split; [|split].
  - eexists. split; [vm_compute; reflexivity|]. split; reflexivity.
  - reflexivity.
  - eexists. split; [vm_compute; reflexivity|]. reflexivity.
Qed.

(** ** Echoed image metadata *)

(** C8 at the failing input.  A 2x1 RGBA file whose declared format is PNG
    is answered with status 200 and its true width and height, but with the
    format [Unknown]: the format is read from the image that replaced the
    opened one in the RGBA branch. *)
Lemma rgba_upload_format_unknown :
  (exists img,
     image_open (Env := Sample.env) Sample.rgba_bytes = Ok img
     /\ PIL.size img = (2, 1) /\ format img = Some "PNG")
  /\ exists r w',
       @App.predict Sample.env (Sample.upload Sample.rgba_bytes) Sample.serving
       = (Ok r, w')
       /\ App.status r = 200
       /\ json_field "image_info" (App.body r)
          = Some (App.JObj [("original_width", App.JInt 2);
                            ("original_height", App.JInt 1);
                            ("format", App.JStr "Unknown")]).
Proof.
  split.
  - eexists. split; [reflexivity|]. split; reflexivity.
  - eexists _, _. split; [vm_compute; reflexivity|]. split; reflexivity.
Qed.

(** ** The dashboard after a failed analysis *)

Section FailedAnalysis.
Context {E : Env}.

(** [predict_image] changes nothing but the trace. *)
Lemma predict_image_frame (m : Model) (img : Image) (w : World) :
  exists o evs,
    Dashboard.predict_image m img w
    = (o, redraw w (session_state w) (screen w) evs).
Proof.
  destruct w as [d mo c s sc nid tk tr].
  unfold Dashboard.predict_image, model_predict, redraw. unfold_monad. step.
  destruct (shape_accepts _ _).
  - destruct (keras_forward _ _) as [p|e].
    + destruct (getitem p 0) as [p0|e];
        [|destruct (is_Exception e); eauto].
      destruct (argmax p0) as [i|e];
        [|destruct (is_Exception e); eauto].
      destruct (list_getitem _ i) as [l|e];
        [|destruct (is_Exception e); eauto].
      destruct (getitem p0 i) as [v|e];
        [|destruct (is_Exception e); eauto].
      destruct (Dashboard.probabilities_of _ _ _) as [ps|e];
        [|destruct (is_Exception e); eauto].
      eauto.
    + destruct (is_Exception e); eauto.
  - step. eauto.
Qed.

Lemma sidebar_run (w : World) :
  Dashboard.sidebar w
  = (Ok tt,
     redraw w (with_count (session_state w))
       (screen w ++ [StSuccess "✅ **Model Active**";
                     StMetric "Analyses Performed" (count_text (session_state w))])
       []).
Proof.
  destruct w as [d mo c s sc nid tk tr].
  unfold Dashboard.sidebar, redraw, count_text, with_count. unfold_monad. step.
  rewrite app_nil_r.
  destruct (s !! "analysis_count") as [v|] eqn:Hs; step.
  - repeat (progress (step; rewrite ?Hs)).
    rewrite <- app_assoc. reflexivity.
  - repeat (progress (step; rewrite ?lookup_insert_eq)).
    rewrite <- app_assoc. reflexivity.
Qed.

Lemma analyze_failure (m : Model) (img : Image) (w : World) (e : string)
    (evs : list Event) :
  Dashboard.predict_image m img w
  = (Ok (None, None, None, Some e), redraw w (session_state w) (screen w) evs) ->
  e <> "" ->
  Dashboard.analyze m img w
  = (Ok tt,
     redraw w (<["prediction_made" := VBool false]> (session_state w))
       (screen w ++ [StError ("❌ Error during analysis: " ++ e)]) evs).
Proof.
  intros Hp He. unfold Dashboard.analyze. unfold bind at 1. rewrite Hp.
  assert (Ht : Dashboard.truthy (Dashboard.val_of_str (Some e)) = true).
  { simpl. destruct (String.eqb_spec e ""); [contradiction|reflexivity]. }
  rewrite Ht. unfold redraw. unfold_monad. step. reflexivity.
Qed.

Lemma results_column_hidden (report_btn : bool) (w : World) :
  session_state w !! "prediction_made" = Some (VBool false) ->
  Dashboard.results_column report_btn w
  = (Ok tt, redraw w (session_state w) (screen w ++ [placeholder]) []).
Proof.
  intros Hs. destruct w as [d mo c s sc nid tk tr]. simpl in Hs.
  unfold Dashboard.results_column, redraw, placeholder. unfold_monad. step.
  rewrite Hs. cbn [Dashboard.truthy]. step. rewrite app_nil_r. reflexivity.
Qed.

Lemma redraw_redraw (w : World) s1 sc1 e1 s2 sc2 e2 :
  redraw (redraw w s1 sc1 e1) s2 sc2 e2 = redraw w s2 sc2 (e1 ++ e2).
Proof. unfold redraw. step. rewrite app_assoc. reflexivity. Qed.

Lemma redraw_session (w : World) s sc e : session_state (redraw w s sc e) = s.
Proof. reflexivity. Qed.

Lemma redraw_screen (w : World) s sc e : screen (redraw w s sc e) = sc.
Proof. reflexivity. Qed.

Lemma st_rerun_run (w : World) :
  st_rerun w = (Ok tt, redraw w (session_state w) [] []).
Proof.
  destruct w. unfold st_rerun, redraw. step. rewrite app_nil_r. reflexivity.
Qed.

Lemma upload_column_run (m : Model) (f : Dashboard.UploadedFile) (img : Image)
    (w : World) :
  image_open (Dashboard.content f) = Ok img ->
  Dashboard.upload_column m (Some f) true w
  = Dashboard.analyze m img
      (redraw w (session_state w)
         (screen w ++ [StImage ("📁 " ++ Dashboard.name f);
                       StMetric "Width" (pretty (width img) ++ "px");
                       StMetric "Height" (pretty (height img) ++ "px");
                       StMetric "Format" (App.format_or_unknown img);
                       StButton "🔬 Start AI Analysis"])
         [EvImageOpen]).
Proof.
  intros Himg. destruct w as [d mo c s sc nid tk tr].
  unfold Dashboard.upload_column, pil_open, redraw. unfold_monad. step.
  rewrite Himg. step. rewrite <- !app_assoc. reflexivity.
Qed.

(** C10, as the dashboard implements it.  When the model is loaded, a file
    is uploaded and decodes, the analyze button is pressed and the analysis
    fails with a non-empty error text, the run draws the inline error
    message, sets [prediction_made] to [False] and changes nothing else in
    the session state, so the stored class, confidence and distribution of
    an earlier analysis are kept; but the results column then draws only
    its placeholder, and no element of the page shows a result. *)
Theorem main_failed_analysis (w : World) (m : Model) (err : option string)
    (f : Dashboard.UploadedFile) (img : Image) (e : string) (report_btn : bool) :
  st_cache w = Some (Some m, err) ->
  image_open (Dashboard.content f) = Ok img ->
  (forall w0, fst (Dashboard.predict_image m img w0)
              = Ok (None, None, None, Some e)) ->
  e <> "" ->
  exists evs,
    Dashboard.main (Some f) true report_btn w
    = (Ok tt,
       redraw w
         (<["prediction_made" := VBool false]> (with_count (session_state w)))
         [ StSuccess "✅ **Model Active**";
           StMetric "Analyses Performed" (count_text (session_state w));
           StImage ("📁 " ++ Dashboard.name f);
           StMetric "Width" (pretty (width img) ++ "px");
           StMetric "Height" (pretty (height img) ++ "px");
           StMetric "Format" (App.format_or_unknown img);
           StButton "🔬 Start AI Analysis";
           StError ("❌ Error during analysis: " ++ e);
           placeholder ]
         evs)
    /\ (forall k, k <> "prediction_made" -> k <> "analysis_count" ->
          session_state (snd (Dashboard.main (Some f) true report_btn w)) !! k
          = session_state w !! k)
    /\ filter is_result (screen (snd (Dashboard.main (Some f) true report_btn w)))
       = [].
Proof.
  intros Hc Himg Hfail He.
  set (w1 := redraw w (with_count (session_state w))
               [StSuccess "✅ **Model Active**";
                StMetric "Analyses Performed" (count_text (session_state w));
                StImage ("📁 " ++ Dashboard.name f);
                StMetric "Width" (pretty (width img) ++ "px");
                StMetric "Height" (pretty (height img) ++ "px");
                StMetric "Format" (App.format_or_unknown img);
                StButton "🔬 Start AI Analysis"] [EvImageOpen]).
  destruct (predict_image_frame m img w1) as (o & evs & Hp).
  assert (Ho : o = Ok (None, None, None, Some e)).
  { specialize (Hfail w1). rewrite Hp in Hfail. exact Hfail. }
  subst o.
  pose proof (analyze_failure m img w1 e evs Hp He) as Ha.
  assert (Hmain : Dashboard.main (Some f) true report_btn w
    = (Ok tt,
       redraw w
         (<["prediction_made" := VBool false]> (with_count (session_state w)))
         [ StSuccess "✅ **Model Active**";
           StMetric "Analyses Performed" (count_text (session_state w));
           StImage ("📁 " ++ Dashboard.name f);
           StMetric "Width" (pretty (width img) ++ "px");
           StMetric "Height" (pretty (height img) ++ "px");
           StMetric "Format" (App.format_or_unknown img);
           StButton "🔬 Start AI Analysis";
           StError ("❌ Error during analysis: " ++ e);
           placeholder ]
         (EvImageOpen :: evs))).
  { unfold Dashboard.main.
    unfold bind at 1. rewrite st_rerun_run.
    unfold bind at 1.
    rewrite (load_model_cached _ (Some m, err)) by exact Hc.
    unfold bind at 1. rewrite sidebar_run, redraw_redraw.
    unfold bind at 1. rewrite (upload_column_run m f img) by exact Himg.
    rewrite redraw_redraw, !redraw_session, !redraw_screen.
    cbn [app]. fold w1. rewrite Ha.
    rewrite results_column_hidden
      by (rewrite redraw_session; apply lookup_insert_eq).
    unfold w1. rewrite !redraw_redraw, !redraw_session, !redraw_screen.
    cbn [app]. rewrite app_nil_r. reflexivity. }
  eexists. split; [exact Hmain|]. rewrite Hmain. unfold redraw. step.
  split; [|reflexivity].
  intros k Hk1 Hk2. rewrite lookup_insert_ne by congruence.
  unfold with_count. destruct (session_state w !! "analysis_count");
    [reflexivity|]. rewrite lookup_insert_ne by congruence. reflexivity.
Qed.

End FailedAnalysis.

Lemma main_failed_analysis_witness :
  st_cache Sample.analysed = Some (Some Sample.the_model, None)
  /\ exists evs,
       @Dashboard.main Sample.env (Some Sample.gray_file) true false Sample.analysed
       = (Ok tt,
          redraw Sample.analysed
            (<["prediction_made" := VBool false]>
               (with_count (session_state Sample.analysed)))
            [ StSuccess "✅ **Model Active**";
              StMetric "Analyses Performed" (count_text (session_state Sample.analysed));
              StImage ("📁 " ++ Dashboard.name Sample.gray_file);
              StMetric "Width" (pretty (width Sample.gray_image) ++ "px");
              StMetric "Height" (pretty (height Sample.gray_image) ++ "px");
              StMetric "Format" (App.format_or_unknown Sample.gray_image);
              StButton "🔬 Start AI Analysis";
              StError ("❌ Error during analysis: "
                       ++ "Input 0 of layer is incompatible with the layer");
              placeholder ]
            evs).
Proof.
  split; [vm_compute; reflexivity|].
  destruct (@main_failed_analysis Sample.env Sample.analysed Sample.the_model None
              Sample.gray_file Sample.gray_image
              "Input 0 of layer is incompatible with the layer" false)
    as (evs & Hmain & _).
  - vm_compute. reflexivity.
  - reflexivity.
  - intros w0. reflexivity.
  - discriminate.
  - exists evs. exact Hmain.
Defined.

(** C10 as stated fails.  After a successful analysis the page shows the
    diagnosis card and the confidence (the sample environment follows
    NumPy 2, where the run ends at the confidence bar).  A following
    analysis that fails (a grayscale upload, whose tensor the model
    rejects) draws the error message, and the page no longer shows any of
    them, although the stored class is still in the session state. *)
Lemma failed_analysis_hides_results :
  let w2 := snd (@Dashboard.main Sample.env (Some Sample.gray_file) true false
                   Sample.analysed) in
  filter is_result (screen Sample.analysed)
  = [ StResultCard "🔴" "Adenocarcinoma"
        "A type of non-small cell lung cancer that begins in mucus-secreting cells."
        "#FF6B6B";
      StMetricPct "Confidence" (f64_of_Z 70) ]
  /\ screen w2
     = [ StSuccess "✅ **Model Active**";
         StMetric "Analyses Performed" "1";
         StImage "📁 scan.png";
         StMetric "Width" "1px";
         StMetric "Height" "1px";
         StMetric "Format" "PNG";
         StButton "🔬 Start AI Analysis";
         StError "❌ Error during analysis: Input 0 of layer is incompatible with the layer";
         placeholder ]
  /\ filter is_result (screen w2) = []
  /\ session_state w2 !! "predicted_class" = Some (VStr "Adenocarcinoma")
  /\ session_state w2 !! "prediction_made" = Some (VBool false).
Proof.
  cbv zeta. repeat split; vm_compute; reflexivity.
Qed.

(* ===================================================================== *)
(** * Further properties of the two applications *)
(* ===================================================================== *)

(** ** The REST handler, case by case *)

Lemma advances_add_events (w : World) (evs : list Event) (n : nat) :
  advances w (add_events w evs (model w) (st_cache w) 0 n).
Proof.
  unfold advances, add_events. step. repeat split; try reflexivity; try lia.
  exists evs. reflexivity.
Qed.

Lemma advances_refl (w : World) : advances w w.
Proof.
  unfold advances. repeat split; try reflexivity.
  exists []. rewrite app_nil_r. reflexivity.
Qed.

Lemma events_since_add_events (w : World) evs m c i n :
  events_since w (add_events w evs m c i n) = evs.
Proof. apply events_since_app. reflexivity. Qed.

Section PredictRuns.
Context {E : Env}.

Lemma predict_no_model (request : App.Request) (w : World) :
  model w = None ->
  App.predict request w = (Ok (App.error_response "Model not loaded" 500), w).
Proof.
  intros Hm. unfold App.predict, try_except, bind, get_model. rewrite Hm.
  reflexivity.
Qed.

Lemma predict_no_file (request : App.Request) (w : World) (m : Model) :
  model w = Some m -> App.files request !! "file" = None ->
  App.predict request w = (Ok (App.error_response "No file uploaded" 400), w).
Proof.
  intros Hm Hf. unfold App.predict, try_except, bind, get_model.
  rewrite Hm, Hf. reflexivity.
Qed.

Lemma predict_no_name (request : App.Request) (w : World) (m : Model)
    (file : App.FileStorage) :
  model w = Some m -> App.files request !! "file" = Some file ->
  App.filename file = "" ->
  App.predict request w = (Ok (App.error_response "No file selected" 400), w).
Proof.
  intros Hm Hf Hn. unfold App.predict, try_except, bind, get_model.
  rewrite Hm, Hf, Hn. reflexivity.
Qed.

(** What [predict] does with a named upload when the model is loaded, by
    the outcome of decoding, of the shape check, of the forward pass and of
    the formatting. *)
Lemma predict_run (request : App.Request) (w : World) (m : Model)
    (file : App.FileStorage) :
  model w = Some m -> App.files request !! "file" = Some file ->
  App.filename file <> "" ->
  App.predict request w =
    match image_open (App.content file) with
    | Raise e =>
        (if is_Exception e then Ok (App.error_response (str e) 500) else Raise e,
         add_events w [EvImageOpen] (model w) (st_cache w) 0 0)
    | Ok img0 =>
        let img := fst (App.prepare img0) in
        let x := snd (App.prepare img0) in
        let evs := [EvImageOpen; EvPredict (mid m) (shape x)] in
        if shape_accepts (input_shape (net m)) (shape x) then
          match keras_forward (net m) x with
          | Raise e =>
              (if is_Exception e then Ok (App.error_response (str e) 500)
               else Raise e,
               add_events w evs (model w) (st_cache w) 0 1)
          | Ok predictions =>
              match App.format_result predictions with
              | Raise e =>
                  (if is_Exception e then Ok (App.error_response (str e) 500)
                   else Raise e,
                   add_events w evs (model w) (st_cache w) 0 2)
              | Ok r =>
                  (Ok (success_response r
                         (f64_sub (clock (S (ticks w))) (clock (ticks w)))
                         img (clock_text (S (S (ticks w))))),
                   add_events w evs (model w) (st_cache w) 0 3)
              end
          end
        else
          (Ok (App.error_response
                 "Input 0 of layer is incompatible with the layer" 500),
           add_events w evs (model w) (st_cache w) 0 1)
    end.
Proof.
  intros Hm Hf Hn. apply String.eqb_neq in Hn.
  destruct w as [d mo c s sc nid tk tr]. cbn [model] in Hm. subst mo.
  unfold App.predict, pil_open, model_predict, time_time, datetime_now, tick,
    add_events, success_response.
  unfold_monad. step. rewrite Hf, Hn. step.
  destruct (image_open (App.content file)) as [img0|e]; step.
  - destruct (App.prepare img0) as [img x]. step.
    unfold width, height. destruct (PIL.size img) as [ow oh]. step.
    destruct (shape_accepts _ _); step.
    + destruct (keras_forward (net m) x) as [ps|e]; step.
      * destruct (App.format_result ps) as [r|e]; step.
        -- rewrite <- !app_assoc. reflexivity.
        -- rewrite <- !app_assoc. destruct (is_Exception e); reflexivity.
      * rewrite <- !app_assoc. destruct (is_Exception e); reflexivity.
    + rewrite <- !app_assoc. reflexivity.
  - destruct (is_Exception e); reflexivity.
Qed.

End PredictRuns.

Section PredictProperties.
Context {E : Env}.

(** The shape of the tensor, for every mode and every original size. *)
Lemma prepare_shape (img : Image) :
  shape (snd (App.prepare img))
  = 1 :: 150 :: 150 ::
    match mode img with
    | L | P | I => []
    | LA => [2]
    | RGB | RGBA => [3]
    | CMYK => [4]
    end.
Proof.
  unfold App.prepare, App.IMG_SIZE, div_scalar, expand_dims0, array_of_image.
  cbn [snd shape]. unfold width, height.
  destruct (mode img) eqn:Hm; rewrite ?resize_size, ?resize_mode; cbn [fst snd];
    rewrite ?Hm; reflexivity.
Qed.

(** X1.  Whatever the request, [predict] leaves the disk, the global
    [model], the caches, the session state and the instance counter as they
    were; it only reads the clock and adds events, and these are nothing,
    one decode, or one decode followed by one inference.  It loads no model
    and no subclass of [Exception] escapes from it. *)
Theorem predict_only_observes (request : App.Request) (w : World) :
  advances w (snd (App.predict request w))
  /\ (events_since w (snd (App.predict request w)) = []
      \/ events_since w (snd (App.predict request w)) = [EvImageOpen]
      \/ exists id sh,
           events_since w (snd (App.predict request w))
           = [EvImageOpen; EvPredict id sh])
  /\ (forall e, fst (App.predict request w) = Raise e -> is_Exception e = false).
Proof.
  destruct (model w) as [m|] eqn:Hm.
  2:{ rewrite (predict_no_model request w Hm). cbn [fst snd].
      rewrite events_since_refl. split; [apply advances_refl|].
      split; [left; reflexivity|discriminate]. }
  destruct (App.files request !! "file") as [file|] eqn:Hf.
  2:{ rewrite (predict_no_file request w m Hm Hf). cbn [fst snd].
      rewrite events_since_refl. split; [apply advances_refl|].
      split; [left; reflexivity|discriminate]. }
  destruct (String.eqb_spec (App.filename file) "") as [Hn|Hn].
  { rewrite (predict_no_name request w m file Hm Hf Hn). cbn [fst snd].
    rewrite events_since_refl. split; [apply advances_refl|].
    split; [left; reflexivity|discriminate]. }
  rewrite (predict_run request w m file Hm Hf Hn).
  destruct (image_open (App.content file)) as [img0|e]; cbv zeta.
  - destruct (shape_accepts _ _).
    + destruct (keras_forward _ _) as [ps|e].
      * destruct (App.format_result ps) as [r|e]; cbn [fst snd];
          rewrite events_since_add_events;
          (split; [apply advances_add_events|]);
          (split; [right; right; eauto|]);
          try discriminate.
        destruct (is_Exception e) eqn:He; [discriminate|congruence].
      * cbn [fst snd]. rewrite events_since_add_events.
        split; [apply advances_add_events|]. split; [right; right; eauto|].
        destruct (is_Exception e) eqn:He; [discriminate|congruence].
    + cbn [fst snd]. rewrite events_since_add_events.
      split; [apply advances_add_events|]. split; [right; right; eauto|].
      discriminate.
  - cbn [fst snd]. rewrite events_since_add_events.
    split; [apply advances_add_events|]. split; [right; left; reflexivity|].
    destruct (is_Exception e) eqn:He; [discriminate|congruence].
Qed.

(** X2.  Every response of [predict] has status 200, 400 or 500; its
    [success] field is true exactly when the status is 200, and every other
    response carries an [error] text. *)
Theorem predict_status_matches_success (request : App.Request) (w : World)
    (r : App.Response) :
  fst (App.predict request w) = Ok r ->
  (App.status r = 200 \/ App.status r = 400 \/ App.status r = 500)
  /\ json_field "success" (App.body r)
     = Some (App.JBool (Nat.eqb (App.status r) 200))
  /\ (App.status r <> 200 ->
      exists msg, json_field "error" (App.body r) = Some (App.JStr msg)).
Proof.
  assert (Herr : forall msg code,
            (code = 400 \/ code = 500) ->
            (App.status (App.error_response msg code) = 200
             \/ App.status (App.error_response msg code) = 400
             \/ App.status (App.error_response msg code) = 500)
            /\ json_field "success" (App.body (App.error_response msg code))
               = Some (App.JBool (Nat.eqb (App.status (App.error_response msg code)) 200))
            /\ (App.status (App.error_response msg code) <> 200 ->
                exists msg', json_field "error" (App.body (App.error_response msg code))
                             = Some (App.JStr msg'))).
  { intros msg code [-> | ->]; (split; [auto|]); (split; [reflexivity|]);
      intros _; exists msg; reflexivity. }
  destruct (model w) as [m|] eqn:Hm.
  2:{ rewrite (predict_no_model request w Hm). cbn [fst].
      intros H; injection H as <-. apply Herr. auto. }
  destruct (App.files request !! "file") as [file|] eqn:Hf.
  2:{ rewrite (predict_no_file request w m Hm Hf). cbn [fst].
      intros H; injection H as <-. apply Herr. auto. }
  destruct (String.eqb_spec (App.filename file) "") as [Hn|Hn].
  { rewrite (predict_no_name request w m file Hm Hf Hn). cbn [fst].
    intros H; injection H as <-. apply Herr. auto. }
  rewrite (predict_run request w m file Hm Hf Hn).
  destruct (image_open (App.content file)) as [img0|e]; cbv zeta.
  - destruct (shape_accepts _ _).
    + destruct (keras_forward _ _) as [ps|e].
      * destruct (App.format_result ps) as [r0|e]; cbn [fst].
        -- intros H; injection H as <-. split; [left; reflexivity|].
           split; [reflexivity|]. intros Hc. exfalso. apply Hc. reflexivity.
        -- destruct (is_Exception e); [|discriminate].
           intros H; injection H as <-. apply Herr. auto.
      * cbn [fst]. destruct (is_Exception e); [|discriminate].
        intros H; injection H as <-. apply Herr. auto.
    + cbn [fst]. intros H; injection H as <-. apply Herr. auto.
  - cbn [fst]. destruct (is_Exception e); [|discriminate].
    intros H; injection H as <-. apply Herr. auto.
Qed.

(** X3.  When the model is loaded and the uploaded file cannot be decoded,
    the answer is status 500 with the text of the decoder's exception, and
    no inference is attempted. *)
Theorem predict_decode_failure (request : App.Request) (w : World) (m : Model)
    (file : App.FileStorage) (e : exn) :
  model w = Some m -> App.files request !! "file" = Some file ->
  App.filename file <> "" ->
  image_open (App.content file) = Raise e -> is_Exception e = true ->
  fst (App.predict request w) = Ok (App.error_response (str e) 500)
  /\ events_since w (snd (App.predict request w)) = [EvImageOpen]
  /\ filter is_inference (events_since w (snd (App.predict request w))) = [].
Proof.
  intros Hm Hf Hn Ho He. rewrite (predict_run request w m file Hm Hf Hn), Ho, He.
  cbn [fst snd]. rewrite events_since_add_events. repeat split.
Qed.

(** X4.  With a model whose input shape is [(None, 150, 150, 3)], an
    upload that decodes to an image that is not RGBA and whose mode does
    not have three bands (grayscale, palette, CMYK, ...) is answered with
    status 500, [success] false and an error text: only RGBA is converted,
    so the tensor does not have three channels and the model refuses it. *)
Theorem predict_rejects_other_band_counts (request : App.Request) (w : World)
    (m : Model) (file : App.FileStorage) (img : Image) :
  model w = Some m -> App.files request !! "file" = Some file ->
  App.filename file <> "" ->
  image_open (App.content file) = Ok img ->
  input_shape (net m) = [None; Some 150; Some 150; Some 3] ->
  mode img <> RGBA -> bands (mode img) <> 3 ->
  exists msg,
    fst (App.predict request w) = Ok (App.error_response msg 500).
Proof.
  intros Hm Hf Hn Ho Hs Hrgba Hbands.
  rewrite (predict_run request w m file Hm Hf Hn), Ho. cbv zeta.
  rewrite prepare_shape, Hs.
  destruct (mode img); cbn [bands] in Hbands; try congruence;
    eexists; reflexivity.
Qed.

(** X5.  In a successful answer, [original_width] and [original_height]
    are the width and height of the decoded upload, whatever its mode; for
    an upload of a mode other than RGBA the [format] is the declared format
    of the file ([Unknown] if it has none). *)
Theorem predict_echoes_image (request : App.Request) (w : World) (m : Model)
    (file : App.FileStorage) (img : Image) (r : App.Response) :
  model w = Some m -> App.files request !! "file" = Some file ->
  App.filename file <> "" ->
  image_open (App.content file) = Ok img ->
  fst (App.predict request w) = Ok r -> App.status r = 200 ->
  exists fmt,
    json_field "image_info" (App.body r)
    = Some (App.JObj [("original_width", App.JInt (Z.of_nat (width img)));
                      ("original_height", App.JInt (Z.of_nat (height img)));
                      ("format", App.JStr fmt)])
    /\ (mode img <> RGBA -> fmt = App.format_or_unknown img)
    /\ (mode img <> RGBA -> forall f, format img = Some f -> f <> "" -> fmt = f).
Proof.
  intros Hm Hf Hn Ho Hr Hst.
  rewrite (predict_run request w m file Hm Hf Hn), Ho in Hr.
  assert (Hsize : PIL.size (fst (App.prepare img)) = PIL.size img).
  { unfold App.prepare. cbn [fst]. destruct (mode img); reflexivity. }
  assert (Hsame : mode img <> RGBA -> fst (App.prepare img) = img).
  { intros Hmode. unfold App.prepare. cbn [fst].
    destruct (mode img); try congruence; reflexivity. }
  destruct (App.prepare img) as [img' x]. cbn [fst snd] in Hr, Hsize, Hsame.
  cbv zeta in Hr.
  assert (Herr : forall msg, r = App.error_response msg 500 -> False).
  { intros msg ->. discriminate Hst. }
  destruct (shape_accepts _ _).
  2:{ cbn [fst] in Hr. injection Hr as Hr. exfalso. eapply Herr; eauto. }
  destruct (keras_forward _ _) as [ps|e].
  2:{ cbn [fst] in Hr. destruct (is_Exception e); [|discriminate].
      injection Hr as Hr. exfalso. eapply Herr; eauto. }
  destruct (App.format_result ps) as [r0|e]; cbn [fst] in Hr.
  2:{ destruct (is_Exception e); [|discriminate].
      injection Hr as Hr. exfalso. eapply Herr; eauto. }
  injection Hr as <-.
  exists (App.format_or_unknown img').
  split; [|split].
  - unfold width, height. rewrite <- Hsize. reflexivity.
  - intros Hmode. rewrite (Hsame Hmode). reflexivity.
  - intros Hmode f Hfmt Hne. rewrite (Hsame Hmode).
    unfold App.format_or_unknown. rewrite Hfmt.
    destruct (String.eqb_spec f ""); [contradiction|reflexivity].
Qed.

(** X6.  In the process that [wsgi.py] sets up, whatever is on disk, every
    prediction request of any sequence is answered with status 500
    [Model not loaded], nothing is decoded or inferred, and the health check
    reports [model_loaded] false. *)
Theorem wsgi_application_refuses_all (files_on_disk : gmap string (list byte))
    (requests : list App.Request) :
  serve App.predict requests (Wsgi.application files_on_disk)
  = (map (fun _ => Ok (App.error_response "Model not loaded" 500)) requests,
     Wsgi.application files_on_disk)
  /\ exists w',
       App.health_check (Wsgi.application files_on_disk)
       = (Ok {| App.body := App.JObj [("status", App.JStr "healthy");
                                      ("model_loaded", App.JBool false);
                                      ("timestamp", App.JStr (clock_text 0))];
                App.status := 200 |}, w')
       /\ model w' = None.
Proof.
  split.
  - induction requests as [|r rs IH]; [reflexivity|].
    cbn [serve map].
    rewrite (predict_no_model r (Wsgi.application files_on_disk) eq_refl), IH.
    reflexivity.
  - eexists. split; reflexivity.
Qed.

(** X7.  The three endpoints agree on the model: the health check reports
    [model_loaded] true exactly when the global [model] is set, the
    model-information endpoint answers 200 in that case and 500 otherwise
    without changing the state, and [predict] answers [Model not loaded]
    whenever the health check reports false. *)
Theorem endpoints_agree_on_model (w : World) (request : App.Request) :
  let loaded := match model w with Some _ => true | None => false end in
  (exists ts w',
     App.health_check w
     = (Ok {| App.body := App.JObj [("status", App.JStr "healthy");
                                    ("model_loaded", App.JBool loaded);
                                    ("timestamp", App.JStr ts)];
              App.status := 200 |}, w')
     /\ advances w w')
  /\ (exists r, App.model_info w = (Ok r, w)
                /\ App.statusx r = if loaded then 200 else 500)
  /\ (loaded = false ->
      App.predict request w = (Ok (App.error_response "Model not loaded" 500), w)).
Proof.
  cbv zeta. split; [|split].
  - destruct w as [d mo c s sc nid tk tr].
    unfold App.health_check, datetime_now, tick. unfold_monad. step.
    eexists _, _. split; [reflexivity|].
    unfold advances. step. repeat split; try reflexivity; try lia.
    exists []. rewrite app_nil_r. reflexivity.
  - unfold App.model_info, try_except, bind, get_model, ret.
    destruct (model w); eexists; split; reflexivity.
  - destruct (model w) eqn:Hm; [discriminate|]. intros _.
    apply predict_no_model. exact Hm.
Qed.

End PredictProperties.

(** ** Start-up and the other endpoints *)

Section StartUp.
Context {E : Env}.

(** X8.  When the artifact is not on disk, [load_model_once] returns
    [None], attempts no deserialization and leaves the global [model]
    unset; every further call checks the disk again, and the [__main__]
    block does not start the server. *)
Theorem load_model_once_without_artifact (w : World) (n : nat) :
  model w = None -> disk w !! App.MODEL_PATH = None ->
  fst (App.load_model_once w) = Ok None
  /\ model (snd (App.load_model_once w)) = None
  /\ events_since w (snd (App.load_model_once w)) = [EvExists App.MODEL_PATH]
  /\ fst (call_n n App.load_model_once w) = repeat (Ok None) n
  /\ events_since w (snd (call_n n App.load_model_once w))
     = repeat (EvExists App.MODEL_PATH) n
  /\ fst (App.server_start w) = Ok false.
Proof.
  intros Hm Hd.
  rewrite (load_model_once_missing w Hm Hd). cbn [fst snd].
  rewrite events_since_add_events.
  split; [reflexivity|]. split; [reflexivity|]. split; [reflexivity|].
  assert (Hn : forall k w0,
             model w0 = None -> disk w0 !! App.MODEL_PATH = None ->
             exists w1,
               call_n k App.load_model_once w0 = (repeat (Ok None) k, w1)
               /\ trace w1 = (trace w0 ++ repeat (EvExists App.MODEL_PATH) k)%list).
  { induction k as [|k IH]; intros w0 Hm0 Hd0.
    - exists w0. split; [reflexivity|]. cbn [repeat]. rewrite app_nil_r.
      reflexivity.
    - cbn [call_n]. rewrite (load_model_once_missing w0 Hm0 Hd0).
      destruct (IH (add_events w0 [EvExists App.MODEL_PATH] None (st_cache w0) 0 0))
        as (w1 & Hc & Ht); [reflexivity|exact Hd0|].
      rewrite Hc. exists w1. split; [reflexivity|].
      rewrite Ht. unfold add_events. cbn [trace repeat].
      rewrite <- app_assoc. reflexivity. }
  destruct (Hn n w Hm Hd) as (w1 & Hc & Ht). rewrite Hc. cbn [fst snd].
  split; [reflexivity|]. split; [apply events_since_app; exact Ht|].
  unfold App.server_start. unfold bind at 1.
  rewrite (load_model_once_missing w Hm Hd). reflexivity.
Qed.

(** X9.  When deserialization succeeds and [compile] raises,
    [load_model_once] returns [None] although the global [model] already
    holds the new instance; a second call therefore returns that instance
    without compiling it.  The [__main__] block overwrites the global with
    the returned [None] and does not start the server. *)
Theorem load_model_once_compile_failure (w : World) (b : list byte) (n : Net)
    (e : exn) :
  model w = None -> disk w !! App.MODEL_PATH = Some b ->
  keras_load b (Some false) = Ok n ->
  keras_compile n = Raise e -> is_Exception e = true ->
  let m := {| mid := next_id w; net := n |} in
  let w1 := snd (App.load_model_once w) in
  fst (App.load_model_once w) = Ok None
  /\ model w1 = Some m
  /\ App.load_model_once w1 = (Ok (Some m), w1)
  /\ exists w2, App.server_start w = (Ok false, w2) /\ model w2 = None.
Proof.
  intros Hm Hd Hl Hc He m w1. subst w1.
  pose proof (load_model_once_fresh w b Hm Hd) as Hrun.
  rewrite Hl, Hc, He in Hrun. cbv zeta in Hrun.
  rewrite Hrun. cbn [fst snd].
  split; [reflexivity|]. split; [reflexivity|].
  split; [apply load_model_once_loaded; reflexivity|].
  unfold App.server_start. unfold bind at 1. rewrite Hrun.
  unfold bind, set_model, ret. step. eexists. split; reflexivity.
Qed.

End StartUp.

(** ** The dashboard's cached load *)

Section DashboardLoad.
Context {E : Env}.

(** Whatever [load_model] returns is what the resource cache holds
    afterwards. *)
Lemma load_model_caches (w w1 : World) (r : option Model * option string) :
  Dashboard.load_model w = (Ok r, w1) -> st_cache w1 = Some r.
Proof.
  unfold Dashboard.load_model, Dashboard.cache_resource, bind, get_cache,
    set_cache, ret.
  destruct (st_cache w) as [r0|] eqn:Hc.
  - intros H. injection H as <- <-. exact Hc.
  - destruct (Dashboard.load_model_body w) as [[r0|e] w0]; [|discriminate].
    step. intros H. injection H as <- <-. reflexivity.
Qed.

(** X10.  The dashboard caches a failed load like a successful one: once
    [load_model] has returned [(None, msg)], every later call returns the
    same pair and touches nothing, whatever has changed on disk in the
    meantime. *)
Theorem load_model_failure_is_cached (w w1 : World) (msg : option string) :
  Dashboard.load_model w = (Ok (None, msg), w1) ->
  forall w2, st_cache w2 = st_cache w1 ->
    Dashboard.load_model w2 = (Ok (None, msg), w2)
    /\ forall n, call_n n Dashboard.load_model w2
                 = (repeat (Ok (None, msg)) n, w2).
Proof.
  intros H w2 Hc. apply load_model_caches in H. rewrite H in Hc.
  pose proof (load_model_cached w2 (None, msg) Hc) as Hl.
  split; [exact Hl|]. intros n. apply call_n_fixed. exact Hl.
Qed.

(** X11.  When the cached load result is a failure, a run of [main] draws
    the two error messages and the hint and returns: whatever was uploaded
    and whichever button was pressed, nothing is decoded or inferred and
    the session state is left as it was. *)
Theorem main_without_model (w : World) (msg : option string)
    (uploaded_file : option Dashboard.UploadedFile) (analyze_btn report_btn : bool) :
  st_cache w = Some (None, msg) ->
  Dashboard.main uploaded_file analyze_btn report_btn w
  = (Ok tt,
     redraw w (session_state w)
       [ StError "❌ Failed to load the AI model";
         StError ("Error: " ++ match msg with Some e => e | None => "None" end);
         StInfo "**The model file has a compatibility issue.**" ]
       []).
Proof.
  intros Hc. unfold Dashboard.main.
  unfold bind at 1. rewrite st_rerun_run.
  unfold bind at 1. rewrite (load_model_cached _ (None, msg)) by exact Hc.
  destruct w as [d mo c s sc nid tk tr].
  unfold redraw. unfold_monad. step. rewrite !app_nil_r. reflexivity.
Qed.

End DashboardLoad.

(** ** What a run of the dashboard leaves in the session state *)

Lemma same_results_refl s : same_results s s.
Proof. intros k _. reflexivity. Qed.

Lemma same_results_trans s1 s2 s3 :
  same_results s1 s2 -> same_results s2 s3 -> same_results s1 s3.
Proof. intros H1 H2 k Hk. rewrite (H2 k Hk). apply H1. exact Hk. Qed.

Section Preservation.
Context {E : Env}.

Lemma pr_bind {A B} (c : M A) (k : A -> M B) :
  preserves_results c -> (forall a, preserves_results (k a)) ->
  preserves_results (bind c k).
Proof.
  intros Hc Hk w. unfold bind. specialize (Hc w).
  destruct (c w) as [[a|e] w1]; cbn [snd] in *; [|exact Hc].
  eapply same_results_trans; [exact Hc|apply Hk].
Qed.

Lemma pr_try {A} (c : M A) (f : exn -> bool) (h : exn -> M A) :
  preserves_results c -> (forall e, preserves_results (h e)) ->
  preserves_results (try_except c f h).
Proof.
  intros Hc Hh w. unfold try_except. specialize (Hc w).
  destruct (c w) as [[a|e] w1]; cbn [snd] in *; [exact Hc|].
  destruct (f e); cbn [snd]; [|exact Hc].
  eapply same_results_trans; [exact Hc|apply Hh].
Qed.

(** A computation that keeps the session state as it is. *)
Lemma pr_frame {A} (c : M A) :
  (forall w, session_state (snd (c w)) = session_state w) ->
  preserves_results c.
Proof. intros H w. rewrite H. apply same_results_refl. Qed.

Lemma pr_ret {A} (a : A) : preserves_results (ret a).
Proof. apply pr_frame. reflexivity. Qed.
Lemma pr_raise {A} (e : exn) : preserves_results (@raise A e).
Proof. apply pr_frame. reflexivity. Qed.
Lemma pr_lift {A} (o : outcome A) : preserves_results (lift o).
Proof. apply pr_frame. reflexivity. Qed.
Lemma pr_emit ev : preserves_results (emit ev).
Proof. apply pr_frame. reflexivity. Qed.
Lemma pr_draw x : preserves_results (st_draw x).
Proof. apply pr_frame. reflexivity. Qed.
Lemma pr_rerun : preserves_results st_rerun.
Proof. apply pr_frame. reflexivity. Qed.
Lemma pr_get_session : preserves_results get_session.
Proof. apply pr_frame. reflexivity. Qed.
Lemma pr_get_cache : preserves_results get_cache.
Proof. apply pr_frame. reflexivity. Qed.
Lemma pr_set_cache c : preserves_results (set_cache c).
Proof. apply pr_frame. reflexivity. Qed.
Lemma pr_fresh_id : preserves_results fresh_id.
Proof. apply pr_frame. reflexivity. Qed.
Lemma pr_tick : preserves_results tick.
Proof. apply pr_frame. reflexivity. Qed.

Lemma pr_set_count v : preserves_results (Dashboard.session_set "analysis_count" v).
Proof.
  intros w k Hk. unfold Dashboard.session_set, bind, get_session, set_session.
  step. apply lookup_insert_ne. congruence.
Qed.

Ltac pr :=
  repeat first
    [ apply pr_ret | apply pr_raise | apply pr_lift | apply pr_emit
    | apply pr_draw | apply pr_rerun | apply pr_get_session | apply pr_get_cache
    | apply pr_set_cache | apply pr_fresh_id | apply pr_tick | apply pr_set_count
    | apply pr_bind; [|intros ?]
    | apply pr_try; [|intros ?]
    | match goal with
      | |- preserves_results (match ?x with _ => _ end) => destruct x
      | |- preserves_results (fun _ => _) =>
          apply pr_frame; intros ?; cbv beta;
          repeat match goal with
                 | |- context [match ?x with _ => _ end] => destruct x
                 end;
          reflexivity
      end ].

Lemma pr_load_model_file path sm : preserves_results (load_model_file path sm).
Proof.
  apply pr_frame. intros w. unfold load_model_file.
  destruct (disk w !! path) as [b|]; [|reflexivity].
  destruct (keras_load b sm); reflexivity.
Qed.

Lemma pr_info_field cls field : preserves_results (Dashboard.info_field cls field).
Proof. unfold Dashboard.info_field. pr. Qed.

Lemma pr_progress x : preserves_results (Dashboard.st_progress x).
Proof. unfold Dashboard.st_progress. pr. Qed.

Lemma pr_probability_rows rows predicted :
  preserves_results (Dashboard.probability_rows rows predicted).
Proof.
  induction rows as [|[class_name prob] rows IH]; cbn [Dashboard.probability_rows].
  - pr.
  - pr; try apply pr_info_field; try exact IH.
Qed.

(** X12.  A run of [main] in which the analyze button is not pressed
    changes no key of the session state other than [analysis_count] (which
    the sidebar initialises), whatever is uploaded, whether or not the
    report button is pressed, and however the run ends: the stored result
    survives every rerun. *)
Theorem rerun_keeps_results (uploaded_file : option Dashboard.UploadedFile)
    (report_btn : bool) (w : World) (k : string) :
  k <> "analysis_count" ->
  session_state (snd (Dashboard.main uploaded_file false report_btn w)) !! k
  = session_state w !! k.
Proof.
  intros Hk. revert k Hk. revert w.
  change (preserves_results (Dashboard.main uploaded_file false report_btn)).
  unfold Dashboard.main, Dashboard.upload_column, pil_open.
  pr; try apply pr_load_model_file; try apply pr_probability_rows;
    try apply pr_progress; pr.
Qed.

End Preservation.

(** ** The dashboard's prediction and its stored result *)

Lemma insert_desc_perm x l : Permutation (Dashboard.insert_desc x l) (x :: l).
Proof.
  induction l as [|y l IH]; cbn [Dashboard.insert_desc]; [reflexivity|].
  destruct (flt _ _); [|reflexivity].
  rewrite IH. apply perm_swap.
Qed.

Lemma sorted_desc_perm d : Permutation (Dashboard.sorted_desc d) d.
Proof.
  induction d as [|x d IH]; [reflexivity|].
  unfold Dashboard.sorted_desc in *. cbn [fold_right].
  rewrite insert_desc_perm. apply perm_skip. exact IH.
Qed.

Lemma insert_desc_hd x y l :
  desc y x -> HdRel desc y l -> HdRel desc y (Dashboard.insert_desc x l).
Proof.
  intros Hyx Hl. destruct l as [|z l]; cbn [Dashboard.insert_desc].
  - constructor. exact Hyx.
  - destruct (flt _ _); constructor.
    + inversion Hl; assumption.
    + exact Hyx.
Qed.

Lemma insert_desc_sorted x l :
  is_nan (snd x) = false -> Forall (fun y => is_nan (snd y) = false) l ->
  Sorted desc l -> Sorted desc (Dashboard.insert_desc x l).
Proof.
  intros Hx Hl Hs. induction l as [|y l IH]; cbn [Dashboard.insert_desc].
  - repeat constructor.
  - apply Forall_cons_iff in Hl as [Hy Hl]. inversion Hs as [|? ? Hs' Hhd]; subst.
    destruct (flt _ _) eqn:Hlt.
    + constructor; [apply IH; assumption|].
      apply insert_desc_hd; [|exact Hhd]. unfold desc. apply flt_fle. exact Hlt.
    + constructor; [exact Hs|]. constructor. unfold desc.
      destruct (fle (snd y) (snd x)) eqn:Hle; [exact Hle|].
      pose proof (fle_total _ _ Hy Hx Hle) as Hgt.
      unfold f64 in *. congruence.
Qed.

(** X13.  The order in which the probability rows are shown: the sorted
    list is a rearrangement of the stored distribution and, when no value
    is a NaN, its values are in descending order. *)
Theorem sorted_desc_sorts (d : list (string * f64)) :
  Forall (fun y => is_nan (snd y) = false) d ->
  Permutation (Dashboard.sorted_desc d) d
  /\ Sorted desc (Dashboard.sorted_desc d)
  /\ length (Dashboard.sorted_desc d) = length d.
Proof.
  intros Hd. split; [apply sorted_desc_perm|]. split.
  - induction d as [|x d IH]; [constructor|].
    apply Forall_cons_iff in Hd as [Hx Hd].
    unfold Dashboard.sorted_desc in *. cbn [fold_right].
    apply insert_desc_sorted; [exact Hx| |apply IH; exact Hd].
    eapply Permutation_Forall; [|exact Hd].
    symmetry. apply (sorted_desc_perm d).
  - apply Permutation_length. apply sorted_desc_perm.
Qed.

Section DashboardResults.
Context {E : Env}.

Lemma dashboard_probabilities (p0 : list f32) (probs : list (string * f64)) :
  Dashboard.probabilities_of p0 (seq 0 (length Dashboard.CLASS_NAMES)) [] = Ok probs ->
  exists a b c rest,
    p0 = a :: b :: c :: rest
    /\ probs = [("Adenocarcinoma", percent a); ("Normal", percent b);
                ("Squamous Cell Carcinoma", percent c)].
Proof.
  destruct p0 as [|a [|b [|c rest]]]; cbn; try discriminate.
  intros H. injection H as <-. eauto 6.
Qed.

(** The possible results of [predict_image]. *)
Lemma predict_image_cases (m : Model) (img : Image) (w : World) :
  match fst (Dashboard.predict_image m img w) with
  | Ok (Some cls, Some conf, Some probs, None) =>
      In cls Dashboard.CLASS_NAMES
      /\ map fst probs = Dashboard.CLASS_NAMES
      /\ dict_getitem probs cls = Ok conf
  | Ok (None, None, None, Some msg) => True
  | Ok _ => False
  | Raise e => is_Exception e = false
  end.
Proof.
  destruct w as [d mo c s sc nid tk tr].
  unfold Dashboard.predict_image, model_predict. unfold_monad. step.
  destruct (shape_accepts _ _);
    [|cbn [is_Exception exn_cls fst]; exact Logic.I].
  destruct (keras_forward _ _) as [p|e]; step;
    [|destruct (is_Exception e) eqn:He; [exact Logic.I|exact He]].
  destruct (getitem p 0) as [p0|e]; step;
    [|destruct (is_Exception e) eqn:He; [exact Logic.I|exact He]].
  destruct (argmax p0) as [i|e]; step;
    [|destruct (is_Exception e) eqn:He; [exact Logic.I|exact He]].
  destruct (list_getitem Dashboard.CLASS_NAMES i) as [cls|e] eqn:Hcls; step;
    [|destruct (is_Exception e) eqn:He; [exact Logic.I|exact He]].
  destruct (getitem p0 i) as [v|e] eqn:Hv; step;
    [|destruct (is_Exception e) eqn:He; [exact Logic.I|exact He]].
  destruct (Dashboard.probabilities_of p0 _ []) as [probs|e] eqn:Hp; step;
    [|destruct (is_Exception e) eqn:He; [exact Logic.I|exact He]].
  apply dashboard_probabilities in Hp as (a & b & c0 & rest & -> & ->).
  unfold list_getitem, Dashboard.CLASS_NAMES in Hcls. unfold getitem in Hv.
  destruct i as [|[|[|i]]]; cbn in Hcls, Hv;
    try (destruct i; discriminate);
    injection Hcls as <-; injection Hv as <-;
    (split; [cbn; tauto|]); split; reflexivity.
Qed.



Lemma st_draw_run (x : Widget) (w : World) :
  st_draw x w = (Ok tt, redraw w (session_state w) (screen w ++ [x]) []).
Proof. destruct w. unfold st_draw, redraw. step. rewrite app_nil_r. reflexivity. Qed.

Lemma session_str_run (k s : string) (w : World) :
  session_state w !! k = Some (VStr s) -> Dashboard.session_str k w = (Ok s, w).
Proof.
  intros H. unfold Dashboard.session_str, Dashboard.session_get, bind,
    get_session, ret. rewrite H. reflexivity.
Qed.








(** X14.  [predict_image] lets no subclass of [Exception] escape.  It
    returns either an error text with the three other components [None],
    or no error with a class of the taxonomy, a distribution whose keys are
    the three labels in order, and the confidence that the distribution
    holds for that class. *)
Theorem predict_image_result (m : Model) (img : Image) (w : World) :
  (forall e, fst (Dashboard.predict_image m img w) = Raise e ->
             is_Exception e = false)
  /\ (forall cls conf probs err,
        fst (Dashboard.predict_image m img w) = Ok (cls, conf, probs, err) ->
        (err = None ->
           exists c x d,
             cls = Some c /\ conf = Some x /\ probs = Some d
             /\ In c Dashboard.CLASS_NAMES
             /\ map fst d = Dashboard.CLASS_NAMES
             /\ dict_getitem d c = Ok x)
        /\ (err <> None -> cls = None /\ conf = None /\ probs = None)).
Proof.
  pose proof (predict_image_cases m img w) as H.
  destruct (fst (Dashboard.predict_image m img w))
    as [[[[[c|] [x|]] [d|]] [msg|]]|e]; try contradiction.
  - split; [discriminate|]. intros cls conf probs err Heq.
    injection Heq as <- <- <- <-. split; [|congruence].
    intros _. destruct H as (H1 & H2 & H3). eauto 10.
  - split; [discriminate|]. intros cls conf probs err Heq.
    injection Heq as <- <- <- <-. split; [discriminate|]. auto.
  - split; [|discriminate]. intros e' Heq. injection Heq as <-. exact H.
Qed.





(** X16.  A failed prediction whose exception has an empty text is taken
    for a success by [if error:]: no error message is drawn,
    [prediction_made] is set, the stored class is [None], the counter is
    increased, and the results column then fails with a [KeyError] before
    drawing any result. *)
Theorem analyze_empty_error_text (m : Model) (img : Image) (w : World)
    (evs : list Event) (z : Z) (report_btn : bool) :
  Dashboard.predict_image m img w
  = (Ok (None, None, None, Some ""), redraw w (session_state w) (screen w) evs) ->
  session_state w !! "analysis_count" = Some (VInt z) ->
  exists w1,
    Dashboard.analyze m img w = (Ok tt, w1)
    /\ screen w1 = screen w
    /\ session_state w1 !! "prediction_made" = Some (VBool true)
    /\ session_state w1 !! "predicted_class" = Some VNone
    /\ session_state w1 !! "analysis_count" = Some (VInt (z + 1))
    /\ exists e w2,
         Dashboard.results_column report_btn w1 = (Raise e, w2)
         /\ exn_cls e = KeyError
         /\ filter is_result (screen w2) = filter is_result (screen w).
Proof.
  intros Hp Hz.
  set (s1 := <["analysis_time" := VStr (clock_text (ticks w))]>
               (<["analysis_count" := VInt (z + 1)]>
                  (<["probabilities" := VNone]>
                     (<["confidence" := VNone]>
                        (<["predicted_class" := VNone]>
                           (<["prediction_made" := VBool true]>
                              (session_state w))))))).
  assert (Hpm : s1 !! "prediction_made" = Some (VBool true)).
  { unfold s1. rewrite !lookup_insert_ne by discriminate. apply lookup_insert_eq. }
  assert (Hpc : s1 !! "predicted_class" = Some VNone).
  { unfold s1. rewrite !lookup_insert_ne by discriminate. apply lookup_insert_eq. }
  assert (Hct : s1 !! "analysis_count" = Some (VInt (z + 1))).
  { unfold s1. rewrite !lookup_insert_ne by discriminate. apply lookup_insert_eq. }
  assert (Hat : s1 !! "analysis_time" = Some (VStr (clock_text (ticks w)))).
  { unfold s1. apply lookup_insert_eq. }
  assert (Ha : Dashboard.analyze m img w
               = (Ok tt, after_tick (redraw w s1 (screen w) evs))).
  { unfold Dashboard.analyze. unfold bind at 1. rewrite Hp.
    cbn [Dashboard.truthy Dashboard.val_of_str Dashboard.val_of_float
         Dashboard.val_of_dict String.eqb negb].
    unfold s1. clear s1 Hpm Hpc Hct Hat.
    destruct w as [d mo c s sc nid tk tr]. cbn [session_state] in Hz.
    unfold redraw, after_tick, datetime_now, tick. unfold_monad. step.
    rewrite !lookup_insert_ne by discriminate. rewrite Hz. step.
    reflexivity. }
  exists (after_tick (redraw w s1 (screen w) evs)).
  split; [exact Ha|]. split; [reflexivity|].
  split; [exact Hpm|]. split; [exact Hpc|]. split; [exact Hct|].
  unfold Dashboard.results_column.
  unfold bind at 1. unfold get_session at 1.
  cbn [session_state after_tick redraw]. rewrite Hpm. cbn [Dashboard.truthy].
  unfold bind at 1.
  rewrite (session_str_run "analysis_time" (clock_text (ticks w))) by exact Hat.
  unfold bind at 1. rewrite st_draw_run.
  unfold bind at 1. unfold Dashboard.session_str, Dashboard.session_get.
  unfold bind at 1. unfold bind at 1. unfold get_session at 1.
  cbn [session_state after_tick redraw]. rewrite Hpc.
  unfold raise. eexists _, _. split; [reflexivity|]. split; [reflexivity|].
  cbn [screen redraw after_tick]. rewrite filter_app. cbn [filter is_result].
  apply app_nil_r.
Qed.

End DashboardResults.

(** ** More on preprocessing and formatting *)

Section MorePipeline.
Context {E : Env}.
Hypothesis resample_ok : resample_sound E.

(** The array computed from a well-formed image of any mode. *)
Lemma tensor_of_image img w h :
  wf_image img = true ->
  let t := div_scalar (expand_dims0 (array_of_image (resize img (w, h))))
             (f32_of_Z 255) in
  length (data t) = h * w * bands (mode img)
  /\ (mode img <> I -> Forall (fun x => in_unit x = true) (data t)).
Proof.
  intros Hwf t.
  assert (Hd : data t = map (fun v => f32_div (f32_of_Z v) (f32_of_Z 255))
                            (concat (concat (px (resize img (w, h)))))).
  { unfold t, div_scalar, expand_dims0, array_of_image. cbn [data].
    rewrite map_map. reflexivity. }
  split.
  - rewrite Hd, length_map. apply (resize_samples_length resample_ok).
    exact Hwf.
  - intros Hm. rewrite Hd. apply List.Forall_forall. intros x Hx.
    apply in_map_iff in Hx as (v & <- & Hv).
    apply in_concat in Hv as (p & Hp & Hv).
    apply byte_unit. apply (pixel_okb_byte (mode img) p); [exact Hm| |exact Hv].
    eapply (resize_pixel resample_ok); eauto.
Qed.

(** X17.  For a well-formed decoded image of any size and any mode, the
    two spatial dimensions of the tensor are 150 and 150 and the number of
    elements is 150 * 150 * channels, where the channel count is that of
    the mode (three for RGBA in the REST pipeline, four in the dashboard);
    a single-band image gets no channel axis.  For every 8-bit mode all
    elements lie in [[0.0, 1.0]]. *)
Theorem prepare_any_mode (img : Image) :
  wf_image img = true ->
  let channels := match mode img with
                  | L | P | I => 1 | LA => 2 | RGB | RGBA => 3 | CMYK => 4
                  end in
  shape (snd (App.prepare img))
  = 1 :: 150 :: 150 :: (if Nat.eqb channels 1 then [] else [channels])
  /\ length (data (snd (App.prepare img))) = 150 * 150 * channels
  /\ shape (Dashboard.prepare img)
     = 1 :: 150 :: 150 ::
       (if Nat.eqb (bands (mode img)) 1 then [] else [bands (mode img)])
  /\ length (data (Dashboard.prepare img)) = 150 * 150 * bands (mode img)
  /\ (mode img <> I ->
      Forall (fun x => in_unit x = true) (data (snd (App.prepare img)))
      /\ Forall (fun x => in_unit x = true) (data (Dashboard.prepare img))).
Proof.
  intros Hwf channels.
  assert (Happ : snd (App.prepare img)
                 = div_scalar (expand_dims0 (array_of_image
                     (resize (match mode img with RGBA => convert_RGB img | _ => img end)
                        (150, 150)))) (f32_of_Z 255)) by reflexivity.
  assert (Hwf' : wf_image (match mode img with RGBA => convert_RGB img | _ => img end)
                 = true).
  { destruct (mode img) eqn:Hm; try exact Hwf.
    apply convert_RGB_wf; assumption. }
  assert (Hbands : bands (mode (match mode img with RGBA => convert_RGB img | _ => img end))
                   = channels).
  { unfold channels. destruct (mode img) eqn:Hm; try (rewrite Hm; reflexivity).
    reflexivity. }
  assert (HnotI : mode img <> I ->
                  mode (match mode img with RGBA => convert_RGB img | _ => img end) <> I).
  { intros Hm. destruct (mode img) eqn:Hm'; try (rewrite Hm'; congruence).
    cbn [mode convert_RGB]. discriminate. }
  destruct (tensor_of_image _ 150 150 Hwf') as (Hlen & Hunit).
  destruct (tensor_of_image img 150 150 Hwf) as (Hlen_d & Hunit_d).
  split; [|split; [|split; [|split]]].
  - rewrite prepare_shape. unfold channels. destruct (mode img); reflexivity.
  - rewrite Happ, Hlen, Hbands. reflexivity.
  - unfold Dashboard.prepare, Dashboard.IMG_SIZE, div_scalar, expand_dims0,
      array_of_image. cbn [shape]. rewrite resize_mode. reflexivity.
  - exact Hlen_d.
  - intros Hm. split.
    + rewrite Happ. apply Hunit. apply HnotI. exact Hm.
    + apply Hunit_d. exact Hm.
Qed.

End MorePipeline.

Section MoreFormatter.
Context {E : Env}.

Lemma app_probabilities (p0 : list f32) (probs : list (string * f64)) :
  App.probabilities_of p0 (seq 0 (length App.CLASS_NAMES)) [] = Ok probs ->
  exists a b c rest,
    p0 = a :: b :: c :: rest
    /\ probs = [("Adenocarcinoma", percent a); ("Normal", percent b);
                ("Squamous Cell Carcinoma", percent c)].
Proof.
  destruct p0 as [|a [|b [|c rest]]]; cbn; try discriminate.
  intros H. injection H as <-. eauto 6.
Qed.

(** X18.  Whenever the formatter succeeds, the predicted class is one of
    the three labels, the distribution has exactly the three labels in the
    taxonomy order, the confidence is the distribution's entry for the
    predicted class, and the class information is the table's entry for
    it. *)
Theorem format_result_consistent (predictions : list (list f32))
    (r : App.Formatted) :
  App.format_result predictions = Ok r ->
  In (App.predicted_class r) App.CLASS_NAMES
  /\ map fst (App.probabilities r) = App.CLASS_NAMES
  /\ dict_getitem (App.probabilities r) (App.predicted_class r)
     = Ok (App.confidence r)
  /\ dict_getitem App.CLASS_INFO (App.predicted_class r) = Ok (App.class_info r).
Proof.
  unfold App.format_result.
  destruct (getitem predictions 0) as [p0|e]; [|discriminate].
  destruct (argmax p0) as [i|e]; [|discriminate].
  destruct (list_getitem App.CLASS_NAMES i) as [cls|e] eqn:Hcls; [|discriminate].
  destruct (getitem p0 i) as [v|e] eqn:Hv; [|discriminate].
  destruct (App.probabilities_of p0 _ []) as [probs|e] eqn:Hp; [|discriminate].
  destruct (dict_getitem App.CLASS_INFO cls) as [ci|e] eqn:Hci; [|discriminate].
  intros H. injection H as <-. cbn [App.predicted_class App.confidence
    App.probabilities App.class_info].
  apply app_probabilities in Hp as (a & b & c & rest & -> & ->).
  unfold list_getitem, App.CLASS_NAMES in Hcls. unfold getitem in Hv.
  destruct i as [|[|[|i]]]; cbn in Hcls, Hv;
    try (destruct i; discriminate);
    injection Hcls as <-; injection Hv as <-;
    (split; [cbn; tauto|]); (split; [reflexivity|]); (split; [reflexivity|]);
    exact Hci.
Qed.

End MoreFormatter.

(** ** Instances *)

Lemma predict_only_observes_witness :
  model (snd (@App.predict Sample.env (Sample.upload Sample.junk_bytes)
                Sample.serving))
  = Some Sample.the_model.
Proof.
  destruct (@predict_only_observes Sample.env (Sample.upload Sample.junk_bytes)
              Sample.serving) as ((_ & Hm & _) & _).
  exact Hm.
Defined.

Lemma endpoints_agree_on_model_witness :
  model Sample.fresh = None
  /\ @App.predict Sample.env Sample.no_file Sample.fresh
     = (Ok (App.error_response "Model not loaded" 500), Sample.fresh).
Proof.
  split; [reflexivity|].
  apply (@endpoints_agree_on_model Sample.env Sample.fresh Sample.no_file).
  reflexivity.
Defined.

Lemma predict_status_matches_success_witness :
  exists r,
    fst (@App.predict Sample.env (Sample.upload Sample.rgb_bytes) Sample.serving)
    = Ok r
    /\ json_field "success" (App.body r)
       = Some (App.JBool (Nat.eqb (App.status r) 200)).
Proof.
  eexists. split; [vm_compute; reflexivity|].
  apply (@predict_status_matches_success Sample.env
           (Sample.upload Sample.rgb_bytes) Sample.serving).
  vm_compute. reflexivity.
Defined.

Lemma predict_decode_failure_witness :
  image_open (Env := Sample.env) Sample.junk_bytes
  = Raise (Exn UnidentifiedImageError "cannot identify image file")
  /\ fst (@App.predict Sample.env (Sample.upload Sample.junk_bytes) Sample.serving)
     = Ok (App.error_response "cannot identify image file" 500).
Proof.
  split; [reflexivity|].
  apply (@predict_decode_failure Sample.env (Sample.upload Sample.junk_bytes)
           Sample.serving Sample.the_model
           {| App.filename := "slide.png"; App.content := Sample.junk_bytes |}
           (Exn UnidentifiedImageError "cannot identify image file"));
    try reflexivity.
  discriminate.
Defined.

Lemma predict_rejects_other_band_counts_witness :
  bands (mode Sample.gray_image) <> 3
  /\ exists msg,
       fst (@App.predict Sample.env (Sample.upload Sample.gray_bytes) Sample.serving)
       = Ok (App.error_response msg 500).
Proof.
  split; [discriminate|].
  apply (@predict_rejects_other_band_counts Sample.env
           (Sample.upload Sample.gray_bytes)
           Sample.serving Sample.the_model
           {| App.filename := "slide.png"; App.content := Sample.gray_bytes |}
           Sample.gray_image); try reflexivity; discriminate.
Defined.

Lemma predict_echoes_image_witness :
  exists r,
    fst (@App.predict Sample.env (Sample.upload Sample.rgb_bytes) Sample.serving)
    = Ok r
    /\ json_field "image_info" (App.body r)
       = Some (App.JObj [("original_width", App.JInt 2);
                         ("original_height", App.JInt 1);
                         ("format", App.JStr "JPEG")]).
Proof.
  eexists. split; [vm_compute; reflexivity|].
  destruct (@predict_echoes_image Sample.env (Sample.upload Sample.rgb_bytes)
              Sample.serving Sample.the_model
              {| App.filename := "slide.png"; App.content := Sample.rgb_bytes |}
              Sample.rgb_image _ eq_refl eq_refl
              ltac:(discriminate) eq_refl
              ltac:(vm_compute; reflexivity) eq_refl)
    as (fmt & Hinfo & _ & Hfmt).
  rewrite (Hfmt ltac:(discriminate) "JPEG" eq_refl ltac:(discriminate)) in Hinfo.
  exact Hinfo.
Defined.

Lemma load_model_once_without_artifact_witness :
  disk Sample.no_artifact !! App.MODEL_PATH = None
  /\ fst (@App.load_model_once Sample.env Sample.no_artifact) = Ok None.
Proof.
  split; [reflexivity|].
  apply (@load_model_once_without_artifact Sample.env Sample.no_artifact 0);
    reflexivity.
Defined.

Lemma load_model_once_compile_failure_witness :
  keras_compile (Env := Sample.env_no_compile) Sample.lung_net
  = Raise (Exn ValueError "Unknown optimizer")
  /\ fst (@App.load_model_once Sample.env_no_compile Sample.fresh) = Ok None
  /\ model (snd (@App.load_model_once Sample.env_no_compile Sample.fresh))
     = Some Sample.the_model.
Proof.
  split; [reflexivity|].
  destruct (@load_model_once_compile_failure Sample.env_no_compile Sample.fresh
              [x00; x01; x02] Sample.lung_net
              (Exn ValueError "Unknown optimizer")
              eq_refl eq_refl eq_refl eq_refl eq_refl)
    as (H1 & H2 & _).
  split; [exact H1|exact H2].
Defined.

Lemma load_model_failure_is_cached_witness :
  exists msg w1,
    @Dashboard.load_model Sample.env Sample.no_artifact = (Ok (None, Some msg), w1)
    /\ @Dashboard.load_model Sample.env Sample.dashboard_failed
       = (Ok (None, Some msg), Sample.dashboard_failed).
Proof.
  eexists _, _. split; [vm_compute; reflexivity|].
  apply (@load_model_failure_is_cached Sample.env Sample.no_artifact _ _
           ltac:(vm_compute; reflexivity) Sample.dashboard_failed).
  vm_compute. reflexivity.
Defined.

Lemma main_without_model_witness :
  st_cache Sample.dashboard_failed
  = Some (None, Some "Model file not found: best_lung_model.h5")
  /\ screen (snd (@Dashboard.main Sample.env (Some Sample.rgb_file) true false
                    Sample.dashboard_failed))
     = [ StError "❌ Failed to load the AI model";
         StError "Error: Model file not found: best_lung_model.h5";
         StInfo "**The model file has a compatibility issue.**" ].
Proof.
  split; [reflexivity|].
  rewrite (@main_without_model Sample.env Sample.dashboard_failed
             (Some "Model file not found: best_lung_model.h5")
             (Some Sample.rgb_file) true false eq_refl).
  reflexivity.
Defined.

Lemma rerun_keeps_results_witness :
  "predicted_class" <> "analysis_count"
  /\ session_state (snd (@Dashboard.main Sample.env None false true Sample.analysed))
     !! "predicted_class"
     = session_state Sample.analysed !! "predicted_class".
Proof.
  split; [discriminate|].
  apply (@rerun_keeps_results Sample.env None true Sample.analysed).
  discriminate.
Defined.

Lemma sorted_desc_sorts_witness :
  Forall (fun y : string * f64 => is_nan (snd y) = false)
    [("Normal", f64_of_Z 20); ("Adenocarcinoma", f64_of_Z 70)]
  /\ Sorted desc (Dashboard.sorted_desc
                    [("Normal", f64_of_Z 20); ("Adenocarcinoma", f64_of_Z 70)]).
Proof.
  assert (H : Forall (fun y : string * f64 => is_nan (snd y) = false)
                [("Normal", f64_of_Z 20); ("Adenocarcinoma", f64_of_Z 70)])
    by (repeat constructor).
  split; [exact H|]. apply (sorted_desc_sorts _ H).
Defined.

Lemma predict_image_result_witness :
  exists probs,
    fst (@Dashboard.predict_image Sample.env Sample.the_model Sample.rgb_image
           Sample.dashboard_ready)
    = Ok (Some "Adenocarcinoma", Some (f64_of_Z 70), Some probs, None)
    /\ map fst probs = Dashboard.CLASS_NAMES.
Proof.
  eexists. split; [vm_compute; reflexivity|].
  destruct (proj2 (@predict_image_result Sample.env Sample.the_model
                     Sample.rgb_image Sample.dashboard_ready)
              _ _ _ _ ltac:(vm_compute; reflexivity))
    as (Hok & _).
  destruct (Hok eq_refl) as (c & x & d & _ & _ & Hd & _ & Hkeys & _).
  injection Hd as <-. exact Hkeys.
Defined.


Lemma analyze_empty_error_text_witness :
  exists w1,
    @Dashboard.analyze Sample.env_silent Sample.the_model Sample.rgb_image
      Sample.counted = (Ok tt, w1)
    /\ session_state w1 !! "prediction_made" = Some (VBool true).
Proof.
  destruct (@analyze_empty_error_text Sample.env_silent Sample.the_model
              Sample.rgb_image Sample.counted
              [EvPredict 0 [1; 150; 150; 3]] 4 false
              ltac:(vm_compute; reflexivity) ltac:(vm_compute; reflexivity))
    as (w1 & Ha & _ & Hpm & _).
  exists w1. split; [exact Ha|exact Hpm].
Defined.

Lemma prepare_any_mode_witness :
  wf_image Sample.gray_image = true
  /\ length (data (snd (@App.prepare Sample.env Sample.gray_image))) = 150 * 150 * 1.
Proof.
  split; [reflexivity|].
  apply (@prepare_any_mode Sample.env sample_resample_sound Sample.gray_image
           eq_refl).
Defined.

Lemma format_result_consistent_witness :
  exists r,
    @App.format_result Sample.env
      [[f32_frac 2 10; f32_frac 7 10; f32_frac 1 10]] = Ok r
    /\ dict_getitem (App.probabilities r) (App.predicted_class r)
       = Ok (App.confidence r).
Proof.
  eexists. split; [vm_compute; reflexivity|].
  apply (@format_result_consistent Sample.env
           [[f32_frac 2 10; f32_frac 7 10; f32_frac 1 10]]).
  vm_compute. reflexivity.
Defined.
